(** * ELECTRA for TensorFlow: input normalisation, attention bias, heads

    A shallow embedding of [src/transformers/modeling_tf_electra.py].

    - Python values that may be [None] are [option]s; a call that may raise
      returns a [result], and the statements of a Python body are chained
      with the bind of that monad, in source order.
    - A tensor is its static shape and its row-major buffer.  The float32
      arithmetic is the IEEE-754 binary32 instance of [SpecFloat].
    - Layer objects are records; the collaborators whose code lives in other
      modules (the BERT embeddings and encoder) are function-valued fields. *)

From Stdlib Require Import ZArith List String Lia.
From Stdlib Require Import Floats.SpecFloat.
From stdpp Require Import base option list strings gmap.

Set Default Proof Using "Type".
Local Open Scope nat_scope.

(** ** Python exceptions and results *)

Inductive exception : Type :=
| ValueError (msg : string)
| AssertionError (msg : string)
| NotImplementedError
| IndexError
| KeyError (key : string)
| TypeError
| InvalidArgumentError.
(** [InvalidArgumentError] stands for what the framework raises on shapes
    that do not fit an operation or a layer. *)

Inductive result (A : Type) : Type :=
| Ok (a : A)
| Raise (e : exception).
Arguments Ok {A} a.
Arguments Raise {A} e.

#[global] Instance result_ret : MRet result := fun A a => Ok a.
#[global] Instance result_bind : MBind result := fun A B f r =>
  match r with
  | Ok a => f a
  | Raise e => Raise e
  end.

#[global] Instance result_fmap : FMap result := fun A B f r =>
  match r with
  | Ok a => Ok (f a)
  | Raise e => Raise e
  end.

Definition is_Ok {A} (r : result A) : bool :=
  match r with Ok _ => true | Raise _ => false end.

(** [assert cond, msg] *)
Definition py_assert (cond : bool) (msg : string) : result unit :=
  if cond then Ok tt else Raise (AssertionError msg).

(** ** float32 *)

Module F32.
Definition prec : Z := 24.
Definition emax : Z := 128.
Definition t : Type := spec_float.

Definition of_int (z : Z) : t := binary_normalize prec emax z 0 false.
Definition zero : t := of_int 0.
Definition one : t := of_int 1.
Definition neg : t -> t := SFopp.
Definition add : t -> t -> t := SFadd prec emax.
Definition sub : t -> t -> t := SFsub prec emax.
Definition mul : t -> t -> t := SFmul prec emax.
Definition div : t -> t -> t := SFdiv prec emax.
Definition sqrt : t -> t := SFsqrt prec emax.
(** IEEE comparison [==]: [-0.0 == 0.0] holds. *)
Definition eqb : t -> t -> bool := SFeqb.
End F32.

(** ** Tensors *)

Record tensor (A : Type) : Type := Tensor { shape : list nat; data : list A }.
Arguments Tensor {A} shape data.
Arguments shape {A} t.
Arguments data {A} t.

(** Number of elements of a shape. *)
Definition numel (s : list nat) : nat := foldr Nat.mul 1 s.

Definition well_formed {A} (t : tensor A) : Prop :=
  length (data t) = numel (shape t).

(** Row-major offset of a multi-index; [None] when the rank differs or an
    index is out of range. *)
Fixpoint offset (s idx : list nat) : option nat :=
  match s, idx with
  | [], [] => Some 0
  | d :: s', i :: idx' =>
      if i <? d then o ← offset s' idx'; Some (i * numel s' + o) else None
  | _, _ => None
  end.

Definition get {A} (t : tensor A) (idx : list nat) : option A :=
  o ← offset (shape t) idx; data t !! o.

Definition tensor_map {A B} (f : A -> B) (t : tensor A) : tensor B :=
  Tensor (shape t) (f <$> data t).

(** A TensorFlow tensor carries its dtype. *)
Inductive tf_tensor : Type :=
| Int32 (t : tensor Z)
| Float32 (t : tensor F32.t).

Definition tf_shape (x : tf_tensor) : list nat :=
  match x with Int32 t => shape t | Float32 t => shape t end.

(** Modelled from the spec: [shape_list] is defined in [modeling_tf_utils],
    outside this file; it "derives the geometric input shape" of a tensor,
    that is, its list of dimensions. *)
Definition shape_list (x : tf_tensor) : list nat := tf_shape x.

Module tf.
(** [tf.fill(dims, value)] with an integer value: an int32 tensor. *)
Definition fill (dims : list nat) (value : Z) : tf_tensor :=
  Int32 (Tensor dims (replicate (numel dims) value)).

(** [tf.cast(x, tf.float32)] *)
Definition cast_float32 (x : tf_tensor) : tensor F32.t :=
  match x with
  | Int32 t => tensor_map F32.of_int t
  | Float32 t => t
  end.

(** [x[:, tf.newaxis, tf.newaxis, :]]: each [:] consumes one dimension of
    [x], the dimensions that are left follow. *)
Definition newaxis_1_2 {A} (t : tensor A) : result (tensor A) :=
  match shape t with
  | d0 :: d1 :: rest => Ok (Tensor (d0 :: 1 :: 1 :: d1 :: rest) (data t))
  | _ => Raise InvalidArgumentError
  end.

Definition tf_newaxis_1_2 (x : tf_tensor) : result tf_tensor :=
  match x with
  | Int32 t => Int32 <$> newaxis_1_2 t
  | Float32 t => Float32 <$> newaxis_1_2 t
  end.

(** [tf.squeeze(x)] without [axis]: every dimension of size 1 goes. *)
Definition squeeze {A} (t : tensor A) : tensor A :=
  Tensor (filter (fun d => d ≠ 1) (shape t)) (data t).
End tf.

(** ** The Keras layers the file instantiates

    A layer record is the layer after its weights exist: Keras creates them
    at the first call, for the width of that first input, from a random
    initializer or a checkpoint; here they are the record's fields. *)

Module Dense.
Record t : Type := { units : nat; kernel : list (list F32.t); bias : list F32.t }.

(** [tf.keras.layers.Dense(units)], with the weights it is given. *)
Definition init (n : nat) (k : list (list F32.t)) (b : list F32.t) : t :=
  {| units := n; kernel := k; bias := b |}.

Definition dot (xs ys : list F32.t) : F32.t :=
  foldl (fun acc p => F32.add acc (F32.mul p.1 p.2)) F32.zero (zip xs ys).

Definition column (j : nat) (k : list (list F32.t)) : list F32.t :=
  (fun r => default F32.zero (r !! j)) <$> k.

(** One output row: [x . kernel + bias]. *)
Definition row (d : t) (x : list F32.t) : list F32.t :=
  (fun j => F32.add (dot x (column j (kernel d))) (default F32.zero (bias d !! j)))
    <$> seq 0 (units d).

(** The layer acts on the last axis, of width [length (kernel d)], and needs
    an input of rank two at least. *)
Definition call (d : t) (x : tensor F32.t) : result (tensor F32.t) :=
  match last (shape x) with
  | Some n =>
      if decide (2 ≤ length (shape x) ∧ n = length (kernel d)) then
        Ok (Tensor (removelast (shape x) ++ [units d])
              (k ← seq 0 (numel (removelast (shape x)));
               row d (take n (drop (k * n) (data x)))))
      else Raise InvalidArgumentError
  | None => Raise InvalidArgumentError
  end.
End Dense.

Module LayerNormalization.
Record t : Type := { epsilon : F32.t; gamma : list F32.t; beta : list F32.t }.

Definition init (eps : F32.t) (g b : list F32.t) : t :=
  {| epsilon := eps; gamma := g; beta := b |}.

Definition mean (xs : list F32.t) : F32.t :=
  F32.div (foldl F32.add F32.zero xs) (F32.of_int (Z.of_nat (length xs))).

(** Normalisation of one row over the last axis, then scale and offset. *)
Definition row (ln : t) (xs : list F32.t) : list F32.t :=
  let m := mean xs in
  let v := mean ((fun x => F32.mul (F32.sub x m) (F32.sub x m)) <$> xs) in
  let inv := F32.div F32.one (F32.sqrt (F32.add v (epsilon ln))) in
  zip_with (fun x gb => F32.add (F32.mul (F32.mul (F32.sub x m) inv) gb.1) gb.2)
    xs (zip (gamma ln) (beta ln)).

Definition call (ln : t) (x : tensor F32.t) : result (tensor F32.t) :=
  match last (shape x) with
  | Some n =>
      if decide (n = length (gamma ln) ∧ n = length (beta ln)) then
        Ok (Tensor (shape x)
              (k ← seq 0 (numel (removelast (shape x)));
               row ln (take n (drop (k * n) (data x)))))
      else Raise InvalidArgumentError
  | None => Raise InvalidArgumentError
  end.
End LayerNormalization.

(** ** Configuration and the activation table *)

(** The fields of [ElectraConfig] that the modelled code reads; the sizes
    and counts are natural numbers. *)
Record ElectraConfig : Type := {
  vocab_size : nat;
  embedding_size : nat;
  hidden_size : nat;
  num_hidden_layers : nat;
  hidden_act : string;
  layer_norm_eps : F32.t;
  num_labels : nat
}.

(** [ACT2FN], imported from [modeling_tf_bert]: a dictionary from activation
    names to element-wise functions.  The table is defined in that module
    and is a parameter here. *)
Class Activations : Type := ACT2FN : gmap string (F32.t -> F32.t).

(** [d[key]] *)
Definition py_getitem {V} (d : gmap string V) (key : string) : result V :=
  match d !! key with
  | Some v => Ok v
  | None => Raise (KeyError key)
  end.

(** [l[i]] for a non-negative [i] *)
Definition py_item {V} (l : list V) (i : nat) : result V :=
  match l !! i with
  | Some v => Ok v
  | None => Raise IndexError
  end.

(** ** The two heads *)

Module TFElectraDiscriminatorPredictions.
Record t : Type := {
  dense : Dense.t;
  dense_prediction : Dense.t;
  config : ElectraConfig
}.

Definition init (c : ElectraConfig) (k1 : list (list F32.t)) (b1 : list F32.t)
    (k2 : list (list F32.t)) (b2 : list F32.t) : t :=
  {| dense := Dense.init (hidden_size c) k1 b1;
     dense_prediction := Dense.init 1 k2 b2;
     config := c |}.

Definition forward `{Activations} (self : t)
    (discriminator_hidden_states : tensor F32.t)
    (attention_mask : option tf_tensor) : result (tensor F32.t) :=
  hidden_states ← Dense.call (dense self) discriminator_hidden_states;
  act ← py_getitem ACT2FN (hidden_act (config self));
  let hidden_states := tensor_map act hidden_states in
  logits ← Dense.call (dense_prediction self) hidden_states;
  Ok (tf.squeeze logits).
End TFElectraDiscriminatorPredictions.

Module TFElectraGeneratorPredictions.
Record t : Type := {
  LayerNorm : LayerNormalization.t;
  dense : Dense.t
}.

Definition init (c : ElectraConfig) (g b : list F32.t)
    (k : list (list F32.t)) (b1 : list F32.t) : t :=
  {| LayerNorm := LayerNormalization.init (layer_norm_eps c) g b;
     dense := Dense.init (embedding_size c) k b1 |}.

Definition forward `{Activations} (self : t)
    (generator_hidden_states : tensor F32.t) : result (tensor F32.t) :=
  hidden_states ← Dense.call (dense self) generator_hidden_states;
  act ← py_getitem ACT2FN "gelu";
  let hidden_states := tensor_map act hidden_states in
  LayerNormalization.call (LayerNorm self) hidden_states.
End TFElectraGeneratorPredictions.

(** ** TFElectraPreTrainedModel *)

Module TFElectraPreTrainedModel.
(** Line 114, on one entry: [(1.0 - x) * -10000.0]. *)
Definition bias_of (x : F32.t) : F32.t :=
  F32.mul (F32.sub F32.one x) (F32.neg (F32.of_int 10000)).

Definition get_extended_attention_mask (attention_mask : option tf_tensor)
    (input_shape : list nat) : result (tensor F32.t) :=
  let attention_mask :=
    match attention_mask with
    | None => tf.fill input_shape 1
    | Some m => m
    end in
  extended_attention_mask ← tf.tf_newaxis_1_2 attention_mask;
  let extended_attention_mask := tf.cast_float32 extended_attention_mask in
  Ok (tensor_map bias_of extended_attention_mask).

Definition get_head_mask (config : ElectraConfig) (head_mask : option tf_tensor)
    : result (list (option tf_tensor)) :=
  match head_mask with
  | Some _ => Raise NotImplementedError
  | None => Ok (replicate (num_hidden_layers config) None)
  end.
End TFElectraPreTrainedModel.

(** ** TFElectraModel *)

(** An element of the tuple a model returns: the sequence output is a
    tensor, the optional hidden states and attentions are tuples of them. *)
Inductive pyobj : Type :=
| PTensor (t : tensor F32.t)
| PTuple (l : list (tensor F32.t)).

(** The first argument of [call]: a list or tuple, a dict, or anything else
    (a tensor or [None]). *)
Inductive call_inputs : Type :=
| Positional (l : list (option tf_tensor))
| Mapping (d : gmap string (option tf_tensor))
| Bare (v : option tf_tensor).

(** The keyword arguments of [call] after [inputs]; all default to [None]. *)
Record keywords : Type := {
  kw_attention_mask : option tf_tensor;
  kw_token_type_ids : option tf_tensor;
  kw_position_ids : option tf_tensor;
  kw_head_mask : option tf_tensor;
  kw_inputs_embeds : option tf_tensor
}.

Definition no_keywords : keywords :=
  {| kw_attention_mask := None; kw_token_type_ids := None;
     kw_position_ids := None; kw_head_mask := None;
     kw_inputs_embeds := None |}.

(** The six local variables once the first branch of [call] is through. *)
Record fields : Type := {
  input_ids : option tf_tensor;
  attention_mask : option tf_tensor;
  token_type_ids : option tf_tensor;
  position_ids : option tf_tensor;
  head_mask : option tf_tensor;
  inputs_embeds : option tf_tensor
}.

Definition both_msg : string :=
  "You cannot specify both input_ids and inputs_embeds at the same time".
Definition neither_msg : string :=
  "You have to specify either input_ids or inputs_embeds".
Definition too_many_msg : string := "Too many inputs.".

Definition canonical_keys : list string :=
  ["input_ids"; "attention_mask"; "token_type_ids"; "position_ids";
   "head_mask"; "inputs_embeds"].

Module TFElectraModel.
Record t : Type := {
  (** [TFElectraEmbeddings.call], inherited from the BERT embeddings, on
      [[input_ids, position_ids, token_type_ids, inputs_embeds]] *)
  embeddings : list (option tf_tensor) -> bool -> result (tensor F32.t);
  embeddings_project : Dense.t;
  (** [TFBertEncoder.call] on the hidden states, the additive attention
      bias and the head mask *)
  encoder : tensor F32.t -> tensor F32.t -> list (option tf_tensor) -> bool ->
            result (list pyobj);
  config : ElectraConfig
}.

Definition init (c : ElectraConfig)
    (emb : list (option tf_tensor) -> bool -> result (tensor F32.t))
    (k : list (list F32.t)) (b : list F32.t)
    (enc : tensor F32.t -> tensor F32.t -> list (option tf_tensor) -> bool ->
           result (list pyobj)) : t :=
  {| embeddings := emb;
     embeddings_project := Dense.init (hidden_size c) k b;
     encoder := enc;
     config := c |}.

(** [inputs[i] if len(inputs) > i else dflt] *)
Definition item_if_longer (l : list (option tf_tensor)) (i : nat)
    (dflt : option tf_tensor) : result (option tf_tensor) :=
  if decide (i < length l) then py_item l i else Ok dflt.

(** [inputs.get(key, dflt)] *)
Definition dict_get (d : gmap string (option tf_tensor)) (key : string)
    (dflt : option tf_tensor) : option tf_tensor :=
  default dflt (d !! key).

(** Lines 162-179 of [call]: the three shapes of [inputs]. *)
Definition normalize_inputs (inputs : call_inputs) (kw : keywords)
    : result fields :=
  match inputs with
  | Positional l =>
      input_ids ← py_item l 0;
      attention_mask ← item_if_longer l 1 (kw_attention_mask kw);
      token_type_ids ← item_if_longer l 2 (kw_token_type_ids kw);
      position_ids ← item_if_longer l 3 (kw_position_ids kw);
      head_mask ← item_if_longer l 4 (kw_head_mask kw);
      inputs_embeds ← item_if_longer l 5 (kw_inputs_embeds kw);
      _ ← py_assert (bool_decide (length l ≤ 6)) too_many_msg;
      Ok {| input_ids := input_ids; attention_mask := attention_mask;
            token_type_ids := token_type_ids; position_ids := position_ids;
            head_mask := head_mask; inputs_embeds := inputs_embeds |}
  | Mapping d =>
      let input_ids := dict_get d "input_ids" None in
      let attention_mask := dict_get d "attention_mask" (kw_attention_mask kw) in
      let token_type_ids := dict_get d "token_type_ids" (kw_token_type_ids kw) in
      let position_ids := dict_get d "position_ids" (kw_position_ids kw) in
      let head_mask := dict_get d "head_mask" (kw_head_mask kw) in
      let inputs_embeds := dict_get d "inputs_embeds" (kw_inputs_embeds kw) in
      _ ← py_assert (bool_decide (size d ≤ 6)) too_many_msg;
      Ok {| input_ids := input_ids; attention_mask := attention_mask;
            token_type_ids := token_type_ids; position_ids := position_ids;
            head_mask := head_mask; inputs_embeds := inputs_embeds |}
  | Bare v =>
      Ok {| input_ids := v; attention_mask := kw_attention_mask kw;
            token_type_ids := kw_token_type_ids kw;
            position_ids := kw_position_ids kw;
            head_mask := kw_head_mask kw;
            inputs_embeds := kw_inputs_embeds kw |}
  end.

(** Lines 181-188 of [call]: exactly one of the two sources, and the shape
    it gives. *)
Definition input_shape_of (f : fields) : result (list nat) :=
  match input_ids f, inputs_embeds f with
  | Some _, Some _ => Raise (ValueError both_msg)
  | Some ids, None => Ok (shape_list ids)
  | None, Some embeds => Ok (removelast (shape_list embeds))
  | None, None => Raise (ValueError neither_msg)
  end.

(** Lines 200-201 of [call]: [hidden_states.shape[-1]] against the
    configured width. *)
Definition project (self : t) (hidden_states : tensor F32.t) (training : bool)
    : result (tensor F32.t) :=
  width ← from_option Ok (Raise IndexError) (last (shape hidden_states));
  if decide (width ≠ hidden_size (config self))
  then Dense.call (embeddings_project self) hidden_states
  else Ok hidden_states.

(** [if x is None: x = tf.fill(input_shape, value)] *)
Definition or_fill (x : option tf_tensor) (input_shape : list nat) (value : Z)
    : tf_tensor :=
  match x with
  | None => tf.fill input_shape value
  | Some m => m
  end.

(** Lines 190-205 of [call]. *)
Definition run (self : t) (f : fields) (input_shape : list nat)
    (training : bool) : result (list pyobj) :=
  let attention_mask := or_fill (attention_mask f) input_shape 1 in
  let token_type_ids := or_fill (token_type_ids f) input_shape 0 in
  extended_attention_mask ←
    TFElectraPreTrainedModel.get_extended_attention_mask
      (Some attention_mask) input_shape;
  head_mask ← TFElectraPreTrainedModel.get_head_mask (config self) (head_mask f);
  hidden_states ←
    embeddings self
      [input_ids f; position_ids f; Some token_type_ids; inputs_embeds f]
      training;
  hidden_states ← project self hidden_states training;
  encoder self hidden_states extended_attention_mask head_mask training.

Definition call (self : t) (inputs : call_inputs) (kw : keywords)
    (training : bool) : result (list pyobj) :=
  f ← normalize_inputs inputs kw;
  input_shape ← input_shape_of f;
  run self f input_shape training.
End TFElectraModel.

(** ** The three task models *)

(** The task models call their head objects, which goes through
    [tf.keras.layers.Layer.__call__]; the head classes define [forward].
    How Keras gets from the one to the other is framework behaviour, so the
    invocation of each head is a parameter. *)
Class LayerCall : Type := {
  discriminator_predictions_call :
    TFElectraDiscriminatorPredictions.t -> tensor F32.t -> option tf_tensor ->
    result (tensor F32.t);
  generator_predictions_call :
    TFElectraGeneratorPredictions.t -> tensor F32.t -> bool ->
    result (tensor F32.t)
}.

(** [outputs[0]], handed to a layer that takes a tensor. *)
Definition sequence_output (outputs : list pyobj) : result (tensor F32.t) :=
  o ← py_item outputs 0;
  match o with
  | PTensor t => Ok t
  | PTuple _ => Raise TypeError
  end.

Module TFElectraForMaskedLM.
Definition config_vocab_size : ElectraConfig -> nat := vocab_size.

Record t : Type := {
  vocab_size : nat;
  generator : TFElectraModel.t;
  generator_predictions : TFElectraGeneratorPredictions.t;
  activation : F32.t -> F32.t;
  (** [input_embeddings], called with [training] and [mode] *)
  generator_lm_head : tensor F32.t -> bool -> string -> result (tensor F32.t);
  (** created by [build]; [None] before *)
  generator_lm_head_bias : option (list F32.t)
}.

(** [__init__]; [gen] and [head] are [TFElectraModel(config)] and
    [TFElectraGeneratorPredictions(config)] with their weights. *)
Definition init `{Activations} (c : ElectraConfig)
    (gen : TFElectraModel.t) (head : TFElectraGeneratorPredictions.t)
    (input_embeddings : tensor F32.t -> bool -> string -> result (tensor F32.t))
    : result t :=
  act ← py_getitem ACT2FN (hidden_act c);
  Ok {| vocab_size := config_vocab_size c;
        generator := gen;
        generator_predictions := head;
        activation := act;
        generator_lm_head := input_embeddings;
        generator_lm_head_bias := None |}.

Definition set_bias (self : t) (b : option (list F32.t)) : t :=
  {| vocab_size := vocab_size self;
     generator := generator self;
     generator_predictions := generator_predictions self;
     activation := activation self;
     generator_lm_head := generator_lm_head self;
     generator_lm_head_bias := b |}.

(** [build]: the bias weight, of shape [(vocab_size,)], initialised to zeros. *)
Definition build (self : t) : t :=
  set_bias self (Some (replicate (vocab_size self) F32.zero)).

Definition call `{LayerCall} (self : t) (input_ids : call_inputs)
    (kw : keywords) (training : bool) : result (list pyobj) :=
  generator_hidden_states ←
    TFElectraModel.call (generator self) input_ids kw training;
  generator_sequence_output ← sequence_output generator_hidden_states;
  prediction_scores ←
    generator_predictions_call (generator_predictions self)
      generator_sequence_output training;
  prediction_scores ← generator_lm_head self prediction_scores training "linear";
  Ok ([PTensor prediction_scores] ++ drop 1 generator_hidden_states).
End TFElectraForMaskedLM.

Module TFElectraForPreTraining.
Record t : Type := {
  discriminator : TFElectraModel.t;
  discriminator_predictions : TFElectraDiscriminatorPredictions.t
}.

(** [__init__]; [disc] is [TFElectraModel(config)] with its weights, [k1] to
    [b2] the weights of the head. *)
Definition init (c : ElectraConfig) (disc : TFElectraModel.t)
    (k1 : list (list F32.t)) (b1 : list F32.t)
    (k2 : list (list F32.t)) (b2 : list F32.t) : t :=
  {| discriminator := disc;
     discriminator_predictions :=
       TFElectraDiscriminatorPredictions.init c k1 b1 k2 b2 |}.

Definition call `{LayerCall} (self : t) (input_ids : call_inputs)
    (kw : keywords) (training : bool) : result (list pyobj) :=
  discriminator_hidden_states ←
    TFElectraModel.call (discriminator self) input_ids kw training;
  discriminator_sequence_output ← sequence_output discriminator_hidden_states;
  logits ←
    discriminator_predictions_call (discriminator_predictions self)
      discriminator_sequence_output (kw_attention_mask kw);
  Ok ([PTensor logits] ++ drop 1 discriminator_hidden_states).
End TFElectraForPreTraining.

Module TFElectraForTokenClassification.
Record t : Type := {
  discriminator : TFElectraModel.t;
  (** [tf.keras.layers.Dropout(config.hidden_dropout_prob)] *)
  dropout : tensor F32.t -> result (tensor F32.t);
  classifier : Dense.t
}.

(** [__init__]; [disc] is [TFElectraModel(config)] with its weights, [drop]
    the dropout layer, [k] and [b] the weights of the classifier. *)
Definition init (c : ElectraConfig) (disc : TFElectraModel.t)
    (drop : tensor F32.t -> result (tensor F32.t))
    (k : list (list F32.t)) (b : list F32.t) : t :=
  {| discriminator := disc;
     dropout := drop;
     classifier := Dense.init (num_labels c) k b |}.

Definition call (self : t) (input_ids : call_inputs)
    (kw : keywords) (training : bool) : result (list pyobj) :=
  discriminator_hidden_states ←
    TFElectraModel.call (discriminator self) input_ids kw training;
  discriminator_sequence_output ← sequence_output discriminator_hidden_states;
  discriminator_sequence_output ← dropout self discriminator_sequence_output;
  logits ← Dense.call (classifier self) discriminator_sequence_output;
  Ok ([PTensor logits] ++ drop 1 discriminator_hidden_states).
End TFElectraForTokenClassification.

(** ** Vocabulary of the statements *)

(** The entry of a mask at [idx] is the number [z], whatever the dtype. *)
Definition mask_is (m : tf_tensor) (idx : list nat) (z : Z) : Prop :=
  match m with
  | Int32 t => get t idx = Some z
  | Float32 t => get t idx = Some (F32.of_int z)
  end.

(** Every entry of a mask is the number [z]. *)
Definition mask_all (m : tf_tensor) (z : Z) : Prop :=
  match m with
  | Int32 t => Forall (fun x => x = z) (data t)
  | Float32 t => Forall (fun x => x = F32.of_int z) (data t)
  end.

(** The float is zero for the IEEE comparison. *)
Definition is_zero (v : F32.t) : Prop := F32.eqb v F32.zero = true.

(** Modelled from the spec: the encoder is [TFBertEncoder] of
    [modeling_tf_bert], outside this file; it "accepts (hidden states,
    additive attention bias, per-layer head mask) and returns a tuple (final
    sequence output, optional per-layer hidden states, optional per-layer
    attention weights)", and the hidden state tensor keeps its shape
    [batch, sequence, hidden_width] through it.  The contract is asked for
    the arguments the base model hands over and no others: well-formed
    hidden states of that shape, a well-formed bias of shape
    [batch, 1, 1, sequence], and the head mask of [None], one per layer. *)
Definition encoder_keeps_shape
    (enc : tensor F32.t -> tensor F32.t -> list (option tf_tensor) -> bool ->
           result (list pyobj))
    (batch seq_len hidden layers : nat) (training : bool) : Prop :=
  forall h bias,
    shape h = [batch; seq_len; hidden] -> well_formed h ->
    shape bias = [batch; 1; 1; seq_len] -> well_formed bias ->
    exists o rest,
      enc h bias (replicate layers None) training = Ok (PTensor o :: rest)
      /\ shape o = [batch; seq_len; hidden].

(** The one source of a valid input, token ids of shape [batch, sequence]
    or embeddings of shape [batch, sequence, width]. *)
Definition source_of_shape (f : fields) (batch seq_len : nat) : Prop :=
  (exists ids, input_ids f = Some ids /\ inputs_embeds f = None
               /\ tf_shape ids = [batch; seq_len])
  \/ (exists embeds width, input_ids f = None /\ inputs_embeds f = Some embeds
                           /\ tf_shape embeds = [batch; seq_len; width]).

(** Exactly one of the two sources is there. *)
Definition exactly_one_source (ids embeds : option tf_tensor) : Prop :=
  is_Some ids /\ embeds = None \/ ids = None /\ is_Some embeds.

(** Modelled from the spec: the embeddings layer and the encoder are code of
    [modeling_tf_bert], outside this file.  The embeddings layer "fails if
    both token ids and precomputed vectors are supplied, or if neither is
    supplied", so not on exactly one of them, and the encoder takes neither.
    The contract, for the message of one of the two errors: the embeddings
    layer does not raise it on exactly one source, the encoder does not
    raise it. *)
Definition passes_no_source_error (self : TFElectraModel.t) (msg : string)
    : Prop :=
  (forall ids positions types embeds training,
      exactly_one_source ids embeds ->
      TFElectraModel.embeddings self [ids; positions; types; embeds] training
      ≠ Raise (ValueError msg))
  /\ (forall h bias head_mask training,
        TFElectraModel.encoder self h bias head_mask training
        ≠ Raise (ValueError msg)).

(** The number of entries of a sequence or mapping input. *)
Definition num_entries (inputs : call_inputs) : option nat :=
  match inputs with
  | Positional l => Some (length l)
  | Mapping d => Some (size d)
  | Bare _ => None
  end.

(** What [call] reads as token ids (lines 163, 171, 179) and as precomputed
    embeddings (lines 168, 176, or the keyword), before any check. *)
Definition supplied_input_ids (inputs : call_inputs) : option tf_tensor :=
  match inputs with
  | Positional l => mjoin (l !! 0)
  | Mapping d => TFElectraModel.dict_get d "input_ids" None
  | Bare v => v
  end.

Definition supplied_inputs_embeds (inputs : call_inputs) (kw : keywords)
    : option tf_tensor :=
  match inputs with
  | Positional l =>
      if decide (5 < length l) then mjoin (l !! 5) else kw_inputs_embeds kw
  | Mapping d => TFElectraModel.dict_get d "inputs_embeds" (kw_inputs_embeds kw)
  | Bare _ => kw_inputs_embeds kw
  end.

(** ** A small model for the examples

    Width 2 for the embeddings, 3 for the hidden states, two layers.  The
    embeddings are zeros over the input shape; the encoder hands its input
    back, as the sequence output and as the one recorded hidden state. *)

Definition example_config : ElectraConfig :=
  {| vocab_size := 4; embedding_size := 2; hidden_size := 3;
     num_hidden_layers := 2; hidden_act := "relu";
     layer_norm_eps := F32.one; num_labels := 2 |}.

Definition zeros (s : list nat) : tensor F32.t :=
  Tensor s (replicate (numel s) F32.zero).

Definition example_embeddings (width : nat) (l : list (option tf_tensor))
    (training : bool) : result (tensor F32.t) :=
  match l with
  | [Some ids; _; _; None] => Ok (zeros (tf_shape ids ++ [width]))
  | [None; _; _; Some (Float32 e)] => Ok e
  | _ => Raise InvalidArgumentError
  end.

Definition example_encoder (h bias : tensor F32.t)
    (head_mask : list (option tf_tensor)) (training : bool)
    : result (list pyobj) :=
  Ok [PTensor h; PTuple [h]].

Definition example_kernel (rows cols : nat) : list (list F32.t) :=
  replicate rows (replicate cols F32.one).

Definition example_model : TFElectraModel.t :=
  TFElectraModel.init example_config (example_embeddings 2)
    (example_kernel 2 3) (replicate 3 F32.zero) example_encoder.

Definition example_ids : tf_tensor := Int32 (Tensor [1; 2] [3; 1]%Z).
Definition example_mask : tf_tensor := Int32 (Tensor [1; 2] [1; 0]%Z).
Definition example_embeds : tf_tensor := Float32 (zeros [1; 2; 2]).

(** An activation table for the examples.  [relu] is computed; the entry
    under "gelu" is a stand-in, the real function needs [erf]. *)
Definition relu (x : F32.t) : F32.t :=
  if SFltb x F32.zero then F32.zero else x.

Definition example_ACT2FN : Activations :=
  (list_to_map [("relu", relu); ("gelu", relu)] : gmap string (F32.t -> F32.t)).

Definition example_discriminator_predictions
    : TFElectraDiscriminatorPredictions.t :=
  TFElectraDiscriminatorPredictions.init example_config
    (example_kernel 3 3) (replicate 3 F32.zero)
    (example_kernel 3 1) [F32.zero].

Definition example_generator_predictions : TFElectraGeneratorPredictions.t :=
  TFElectraGeneratorPredictions.init example_config
    (replicate 2 F32.one) (replicate 2 F32.zero)
    (example_kernel 3 2) (replicate 2 F32.zero).

(** An instance for the examples: each head object runs its [forward].
    The head classes define [forward] and no [call]; what the [__call__] of
    Keras makes of that is outside this file, and no theorem depends on the
    instance. *)
Definition example_LayerCall : LayerCall :=
  {| discriminator_predictions_call :=
       TFElectraDiscriminatorPredictions.forward (H := example_ACT2FN);
     generator_predictions_call := fun self x training =>
       TFElectraGeneratorPredictions.forward (H := example_ACT2FN) self x |}.

(** A projection from the embedding width 2 to the vocabulary of 4. *)
Definition example_lm_head (x : tensor F32.t) (training : bool) (mode : string)
    : result (tensor F32.t) :=
  Dense.call (Dense.init 4 (example_kernel 2 4) (replicate 4 F32.zero)) x.

Definition example_masked_lm : TFElectraForMaskedLM.t :=
  {| TFElectraForMaskedLM.vocab_size := 4;
     TFElectraForMaskedLM.generator := example_model;
     TFElectraForMaskedLM.generator_predictions := example_generator_predictions;
     TFElectraForMaskedLM.activation := relu;
     TFElectraForMaskedLM.generator_lm_head := example_lm_head;
     TFElectraForMaskedLM.generator_lm_head_bias := None |}.

Definition example_pretraining : TFElectraForPreTraining.t :=
  TFElectraForPreTraining.init example_config example_model
    (example_kernel 3 3) (replicate 3 F32.zero)
    (example_kernel 3 1) [F32.zero].

Definition example_token_classification : TFElectraForTokenClassification.t :=
  TFElectraForTokenClassification.init example_config example_model Ok
    (example_kernel 3 2) (replicate 2 F32.zero).

(** The masked-LM scores as the specification words them, for comparison
    with the code: the bias vector added along the last axis of the
    projected scores. *)
Definition add_bias (x : tensor F32.t) (b : list F32.t) : tensor F32.t :=
  Tensor (shape x)
    (imap (fun i v => F32.add v (default F32.zero (b !! (i mod length b))))
       (data x)).

Definition spec_masked_lm_scores (scores : tensor F32.t)
    (bias : option (list F32.t)) : result (tensor F32.t) :=
  match bias with
  | Some b => Ok (add_bias scores b)
  | None => Raise TypeError
  end.

(** ** The rest of the module, and the vocabulary of its properties *)

(** Lines 15-22: the archive of every pretrained model, by name. *)
Definition TF_ELECTRA_PRETRAINED_MODEL_ARCHIVE_MAP : gmap string string :=
  list_to_map
    [("google/electra-small-generator",
      "https://s3.amazonaws.com/models.huggingface.co/bert/google/electra-small-generator/pytorch_model.bin");
     ("google/electra-base-generator",
      "https://s3.amazonaws.com/models.huggingface.co/bert/google/electra-base-generator/pytorch_model.bin");
     ("google/electra-large-generator",
      "https://s3.amazonaws.com/models.huggingface.co/bert/google/electra-large-generator/pytorch_model.bin");
     ("google/electra-small-discriminator",
      "https://s3.amazonaws.com/models.huggingface.co/bert/google/electra-small-discriminator/pytorch_model.bin");
     ("google/electra-base-discriminator",
      "https://s3.amazonaws.com/models.huggingface.co/bert/google/electra-base-discriminator/pytorch_model.bin");
     ("google/electra-large-discriminator",
      "https://s3.amazonaws.com/models.huggingface.co/bert/google/electra-large-discriminator/pytorch_model.bin")].

(** The shape the names and the addresses of the table have. *)
Definition archive_url (name : string) : string :=
  "https://s3.amazonaws.com/models.huggingface.co/bert/" +:+ name
    +:+ "/pytorch_model.bin".

Definition electra_name (size role : string) : string :=
  "google/electra-" +:+ size +:+ "-" +:+ role.

Definition electra_sizes : list string := ["small"; "base"; "large"].
Definition electra_roles : list string := ["generator"; "discriminator"].

(** The keyword that stands at position [i] of a sequence input. *)
Definition kw_field (i : nat) (kw : keywords) : option tf_tensor :=
  match i with
  | 1 => kw_attention_mask kw
  | 2 => kw_token_type_ids kw
  | 3 => kw_position_ids kw
  | 4 => kw_head_mask kw
  | 5 => kw_inputs_embeds kw
  | _ => None
  end.

(** The keys of a mapping input that have a keyword of the same name. *)
Definition keyword_keys : list (string * (keywords -> option tf_tensor)) :=
  [("attention_mask", kw_attention_mask); ("token_type_ids", kw_token_type_ids);
   ("position_ids", kw_position_ids); ("head_mask", kw_head_mask);
   ("inputs_embeds", kw_inputs_embeds)].

Definition with_attention_mask (kw : keywords) (m : option tf_tensor) : keywords :=
  {| kw_attention_mask := m; kw_token_type_ids := kw_token_type_ids kw;
     kw_position_ids := kw_position_ids kw; kw_head_mask := kw_head_mask kw;
     kw_inputs_embeds := kw_inputs_embeds kw |}.

Definition with_token_type_ids (kw : keywords) (m : option tf_tensor) : keywords :=
  {| kw_attention_mask := kw_attention_mask kw; kw_token_type_ids := m;
     kw_position_ids := kw_position_ids kw; kw_head_mask := kw_head_mask kw;
     kw_inputs_embeds := kw_inputs_embeds kw |}.

(** The keywords a sequence input amounts to: entry [i + 1] where the
    sequence has one, the keyword otherwise. *)
Definition sequence_keywords (rest : list (option tf_tensor)) (kw : keywords)
    : keywords :=
  {| kw_attention_mask := from_option id (kw_attention_mask kw) (rest !! 0);
     kw_token_type_ids := from_option id (kw_token_type_ids kw) (rest !! 1);
     kw_position_ids := from_option id (kw_position_ids kw) (rest !! 2);
     kw_head_mask := from_option id (kw_head_mask kw) (rest !! 3);
     kw_inputs_embeds := from_option id (kw_inputs_embeds kw) (rest !! 4) |}.

(** The same for a mapping input: the value under the key where the mapping
    has the key, the keyword otherwise. *)
Definition mapping_keywords (d : gmap string (option tf_tensor)) (kw : keywords)
    : keywords :=
  {| kw_attention_mask := from_option id (kw_attention_mask kw) (d !! "attention_mask");
     kw_token_type_ids := from_option id (kw_token_type_ids kw) (d !! "token_type_ids");
     kw_position_ids := from_option id (kw_position_ids kw) (d !! "position_ids");
     kw_head_mask := from_option id (kw_head_mask kw) (d !! "head_mask");
     kw_inputs_embeds := from_option id (kw_inputs_embeds kw) (d !! "inputs_embeds") |}.

(** Row [k] of a buffer of rows of the given width: the vector of one
    token. *)
Definition token_row {A} (width k : nat) (buf : list A) : list A :=
  take width (drop (k * width) buf).

(** What the discriminator head makes of the hidden vector of one token. *)
Definition discriminator_token_logit
    (self : TFElectraDiscriminatorPredictions.t) (act : F32.t -> F32.t)
    (r : list F32.t) : F32.t :=
  F32.add
    (Dense.dot (act <$> Dense.row (TFElectraDiscriminatorPredictions.dense self) r)
       (Dense.column 0
          (Dense.kernel (TFElectraDiscriminatorPredictions.dense_prediction self))))
    (default F32.zero
       (Dense.bias (TFElectraDiscriminatorPredictions.dense_prediction self) !! 0)).

(** What the generator head makes of the hidden vector of one token. *)
Definition generator_token_vector
    (self : TFElectraGeneratorPredictions.t) (gelu : F32.t -> F32.t)
    (r : list F32.t) : list F32.t :=
  LayerNormalization.row (TFElectraGeneratorPredictions.LayerNorm self)
    (gelu <$> Dense.row (TFElectraGeneratorPredictions.dense self) r).

(** Embeddings of the hidden width 3, for token ids only. *)
Definition example_wide_embeddings (l : list (option tf_tensor))
    (training : bool) : result (tensor F32.t) :=
  match l with
  | [Some ids; _; _; None] => Ok (zeros (tf_shape ids ++ [3]))
  | _ => Raise InvalidArgumentError
  end.

(** * Properties *)

(** ** The result monad *)

Lemma bind_Ok {A B} (f : A -> result B) (a : A) : (Ok a ≫= f) = f a.
Proof. reflexivity. Qed.

Lemma bind_Ok_inv {A B} (f : A -> result B) (r : result A) (b : B) :
  (r ≫= f) = Ok b -> exists a, r = Ok a /\ f a = Ok b.
Proof. destruct r as [a|e]; [eauto | discriminate]. Qed.

(** ** Shapes and offsets *)

Lemma offset_newaxis (b s i j : nat) (rest idx : list nat) :
  offset (b :: 1 :: 1 :: s :: rest) (i :: 0 :: 0 :: j :: idx)
  = offset (b :: s :: rest) (i :: j :: idx).
Proof.
  cbn [offset numel foldr].
  destruct (i <? b); [|reflexivity].
  change (0 <? 1) with true. cbn match.
  destruct (j <? s); [|reflexivity].
  destruct (offset rest idx) as [o|]; cbn; [|reflexivity].
  f_equal. lia.
Qed.

Lemma get_expanded {A} (t t' : tensor A) (b s i j : nat) :
  shape t = [b; s] -> shape t' = [b; 1; 1; s] -> data t' = data t ->
  get t' [i; 0; 0; j] = get t [i; j].
Proof.
  unfold get. intros -> -> ->. now rewrite offset_newaxis.
Qed.

Lemma get_tensor_map {A B} (f : A -> B) (t : tensor A) (idx : list nat) :
  get (tensor_map f t) idx = f <$> get t idx.
Proof.
  unfold get, tensor_map. cbn [shape data].
  destruct (offset (shape t) idx) as [o|]; cbn; [|reflexivity].
  apply list_lookup_fmap.
Qed.

(** ** float32 facts behind the attention bias *)

Lemma bias_of_one : TFElectraPreTrainedModel.bias_of F32.one = S754_zero true.
Proof. reflexivity. Qed.

Lemma bias_of_one_is_zero : is_zero (TFElectraPreTrainedModel.bias_of F32.one).
Proof. reflexivity. Qed.

Lemma bias_of_zero : TFElectraPreTrainedModel.bias_of F32.zero = F32.of_int (-10000).
Proof. reflexivity. Qed.

(** The two new axes leave the buffer as it is. *)
Lemma tf_newaxis_cast (mask : tf_tensor) (b s : nat) :
  tf_shape mask = [b; s] ->
  exists m, tf.tf_newaxis_1_2 mask = Ok m
            /\ shape (tf.cast_float32 m) = [b; 1; 1; s]
            /\ data (tf.cast_float32 m) = data (tf.cast_float32 mask).
Proof.
  intros Hs. destruct mask as [t|t]; cbn in Hs;
    unfold tf.tf_newaxis_1_2, tf.newaxis_1_2; rewrite Hs;
    eexists; (split; [reflexivity|]); split; reflexivity.
Qed.

(** The bias entry under a mask entry: the mask is read at the same batch
    row and sequence position, cast, and sent through [bias_of]. *)
Lemma extended_mask_get (mask : tf_tensor) (b s : nat) (input_shape : list nat) :
  tf_shape mask = [b; s] ->
  exists bias,
    TFElectraPreTrainedModel.get_extended_attention_mask (Some mask) input_shape
    = Ok bias
    /\ shape bias = [b; 1; 1; s]
    /\ data bias
       = TFElectraPreTrainedModel.bias_of <$> data (tf.cast_float32 mask)
    /\ forall i j, get bias [i; 0; 0; j]
                   = TFElectraPreTrainedModel.bias_of
                       <$> get (tf.cast_float32 mask) [i; j].
Proof.
  intros Hs. destruct (tf_newaxis_cast mask b s Hs) as (m & Hm & Hsm & Hdm).
  unfold TFElectraPreTrainedModel.get_extended_attention_mask.
  rewrite Hm, bind_Ok. eexists. split; [reflexivity|].
  split; [exact Hsm|]. split; [cbn [tensor_map data]; now rewrite Hdm|].
  intros i j. rewrite get_tensor_map. f_equal.
  apply (get_expanded _ _ b s); [|exact Hsm|exact Hdm].
  destruct mask; exact Hs.
Qed.

(** ** The additive attention bias *)

(** C2. For a mask of shape [batch, sequence] the additive bias is computed,
    has shape [batch, 1, 1, sequence], carries zero where the mask is 1 and
    -10000 where the mask is 0; when every mask entry is 1, every bias entry
    is zero.  (The zero is the float32 [-0.0], which equals [0.0].) *)
Theorem extended_attention_mask_bias (mask : tf_tensor) (b s : nat)
    (input_shape : list nat) :
  tf_shape mask = [b; s] ->
  exists bias,
    TFElectraPreTrainedModel.get_extended_attention_mask (Some mask) input_shape
    = Ok bias
    /\ shape bias = [b; 1; 1; s]
    /\ (well_formed (tf.cast_float32 mask) -> well_formed bias)
    /\ (forall i j, mask_is mask [i; j] 1 ->
          exists v, get bias [i; 0; 0; j] = Some v /\ is_zero v)
    /\ (forall i j, mask_is mask [i; j] 0 ->
          get bias [i; 0; 0; j] = Some (F32.of_int (-10000)))
    /\ (mask_all mask 1 -> Forall is_zero (data bias)).
Proof.
  intros Hs.
  destruct (extended_mask_get mask b s input_shape Hs)
    as (bias & Hcall & Hshape & Hdata & Hget).
  exists bias. split; [exact Hcall|]. split; [exact Hshape|].
  assert (Hcast : shape (tf.cast_float32 mask) = [b; s])
    by (destruct mask; exact Hs).
  repeat split.
  - unfold well_formed. rewrite Hshape, Hdata, Hcast, length_fmap.
    intros ->. cbn. lia.
  - intros i j H1. rewrite Hget.
    exists (TFElectraPreTrainedModel.bias_of F32.one). split; [|reflexivity].
    destruct mask as [t|t]; unfold mask_is in H1; unfold tf.cast_float32.
    + now rewrite get_tensor_map, H1.
    + now rewrite H1.
  - intros i j H0. rewrite Hget.
    destruct mask as [t|t]; unfold mask_is in H0; unfold tf.cast_float32.
    + now rewrite get_tensor_map, H0.
    + now rewrite H0.
  - intros Hall. rewrite Hdata. apply Forall_fmap.
    destruct mask as [t|t]; unfold mask_all in Hall;
      unfold tf.cast_float32, tensor_map; cbn [data].
    + apply Forall_fmap. eapply Forall_impl; [exact Hall|].
      intros x ->. reflexivity.
    + eapply Forall_impl; [exact Hall|]. intros x ->. reflexivity.
Qed.

Lemma extended_attention_mask_bias_witness :
  exists bias,
    TFElectraPreTrainedModel.get_extended_attention_mask
      (Some example_mask) [1; 2] = Ok bias
    /\ shape bias = [1; 1; 1; 2]
    /\ (well_formed (tf.cast_float32 example_mask) -> well_formed bias)
    /\ (forall i j, mask_is example_mask [i; j] 1 ->
          exists v, get bias [i; 0; 0; j] = Some v /\ is_zero v)
    /\ (forall i j, mask_is example_mask [i; j] 0 ->
          get bias [i; 0; 0; j] = Some (F32.of_int (-10000)))
    /\ (mask_all example_mask 1 -> Forall is_zero (data bias)).
Proof. apply (extended_attention_mask_bias example_mask 1 2 [1; 2]). reflexivity. Defined.

(** The bias of the example mask [[1, 0]], computed. *)
Example example_mask_bias :
  TFElectraPreTrainedModel.get_extended_attention_mask (Some example_mask) [1; 2]
  = Ok (Tensor [1; 1; 1; 2] [S754_zero true; F32.of_int (-10000)]).
Proof. reflexivity. Qed.

(** Without a mask the bias is that of the all-ones mask over the input
    shape: zero everywhere. *)
Lemma extended_attention_mask_default (b s : nat) :
  exists bias,
    TFElectraPreTrainedModel.get_extended_attention_mask None [b; s] = Ok bias
    /\ shape bias = [b; 1; 1; s]
    /\ Forall is_zero (data bias).
Proof.
  eexists. split; [reflexivity|]. split; [reflexivity|].
  cbn [tensor_map tf.cast_float32 data]. rewrite <- !list_fmap_compose.
  apply Forall_fmap, Forall_forall. intros x [-> _]%elem_of_replicate.
  reflexivity.
Qed.

(** ** The head mask *)

(** C6. [get_head_mask] raises [NotImplementedError] on every head mask that
    is not [None], and turns [None] into a list of [None], one per
    configured encoder layer. *)
Theorem get_head_mask_spec (config : ElectraConfig) :
  (forall m, TFElectraPreTrainedModel.get_head_mask config (Some m)
             = Raise NotImplementedError)
  /\ exists l, TFElectraPreTrainedModel.get_head_mask config None = Ok l
       /\ length l = num_hidden_layers config
       /\ Forall (fun x => x = None) l.
Proof.
  split; [reflexivity|].
  exists (replicate (num_hidden_layers config) None).
  split; [reflexivity|]. split; [apply length_replicate|].
  apply Forall_forall. now intros x [-> _]%elem_of_replicate.
Qed.

(** ** Input normalisation and the two-sources check *)

Lemma item_if_longer_Ok (l : list (option tf_tensor)) (i : nat)
    (dflt : option tf_tensor) :
  exists v, TFElectraModel.item_if_longer l i dflt = Ok v.
Proof.
  unfold TFElectraModel.item_if_longer, py_item. case_decide as Hlt; [|eauto].
  destruct (lookup_lt_is_Some_2 l i Hlt) as [v ->]. eauto.
Qed.

(** The reads of lines 164-167 return, and so does the one of line 168. *)
Ltac read_items l kw :=
  destruct (item_if_longer_Ok l 1 (kw_attention_mask kw)) as [? ->];
  destruct (item_if_longer_Ok l 2 (kw_token_type_ids kw)) as [? ->];
  destruct (item_if_longer_Ok l 3 (kw_position_ids kw)) as [? ->];
  destruct (item_if_longer_Ok l 4 (kw_head_mask kw)) as [? ->].

Ltac read_last_item l kw :=
  destruct (item_if_longer_Ok l 5 (kw_inputs_embeds kw)) as [? ->].

(** Normalisation goes through exactly for a bare value, a mapping of at
    most six entries and a sequence of one to six entries. *)
Lemma normalize_inputs_Ok (inputs : call_inputs) (kw : keywords) :
  is_Ok (TFElectraModel.normalize_inputs inputs kw) = true <->
  match inputs with
  | Positional l => 1 <= length l <= 6
  | Mapping d => size d <= 6
  | Bare _ => True
  end.
Proof.
  destruct inputs as [l|d|v]; cbn [TFElectraModel.normalize_inputs].
  - destruct l as [|x l]; [cbn; split; [discriminate|lia]|].
    cbn [py_item lookup list_lookup mbind result_bind].
    read_items (x :: l) kw. read_last_item (x :: l) kw.
    cbn [mbind result_bind]. unfold py_assert.
    case_bool_decide; cbn in *; split; intros; try done; lia.
  - unfold py_assert. case_bool_decide; cbn; split; intros; try done; lia.
  - cbn. tauto.
Qed.

(** C7. A sequence or a mapping of more than six entries makes the call
    raise the assertion error "Too many inputs.". *)
Theorem too_many_inputs (self : TFElectraModel.t) (inputs : call_inputs)
    (kw : keywords) (training : bool) (n : nat) :
  num_entries inputs = Some n -> 6 < n ->
  TFElectraModel.call self inputs kw training
  = Raise (AssertionError too_many_msg).
Proof.
  intros Hn Hlt. unfold TFElectraModel.call.
  destruct inputs as [l|d|v]; cbn in Hn; [| |discriminate];
    injection Hn as <-; cbn [TFElectraModel.normalize_inputs].
  - destruct l as [|x l]; [cbn in Hlt; lia|].
    cbn [py_item lookup list_lookup mbind result_bind].
    read_items (x :: l) kw. read_last_item (x :: l) kw.
    cbn [mbind result_bind]. unfold py_assert.
    rewrite bool_decide_eq_false_2 by lia. reflexivity.
  - unfold py_assert. rewrite bool_decide_eq_false_2 by lia. reflexivity.
Qed.

Lemma too_many_inputs_witness :
  TFElectraModel.call example_model
    (Mapping (list_to_map
       [("input_ids", Some example_ids); ("a", None); ("b", None);
        ("c", None); ("d", None); ("e", None); ("f", None)]))
    no_keywords false
  = Raise (AssertionError too_many_msg).
Proof.
  apply (too_many_inputs example_model _ no_keywords false 7);
    [reflexivity | lia].
Defined.

(** After a normalisation that went through, the two sources are the ones
    the call was given. *)
Lemma normalize_inputs_sources (inputs : call_inputs) (kw : keywords)
    (f : fields) :
  TFElectraModel.normalize_inputs inputs kw = Ok f ->
  input_ids f = supplied_input_ids inputs
  /\ inputs_embeds f = supplied_inputs_embeds inputs kw.
Proof.
  destruct inputs as [l|d|v]; cbn [TFElectraModel.normalize_inputs].
  - destruct l as [|x l]; [discriminate|].
    cbn [py_item lookup list_lookup mbind result_bind].
    read_items (x :: l) kw.
    cbn [mbind result_bind].
    unfold TFElectraModel.item_if_longer at 1, supplied_inputs_embeds, py_item.
    case_decide as Hlt.
    + destruct (lookup_lt_is_Some_2 (x :: l) 5 Hlt) as [v Hv]. rewrite Hv.
      cbn [mbind result_bind]. unfold py_assert.
      case_bool_decide; [|discriminate]. now intros [= <-].
    + cbn [mbind result_bind]. unfold py_assert.
      case_bool_decide; [|discriminate]. now intros [= <-].
  - unfold py_assert. case_bool_decide; [|discriminate]. now intros [= <-].
  - now intros [= <-].
Qed.

(** What the steps after the check can raise. *)
Lemma extended_mask_raises (m : option tf_tensor) (s : list nat) (e : exception) :
  TFElectraPreTrainedModel.get_extended_attention_mask m s = Raise e ->
  e = InvalidArgumentError.
Proof.
  unfold TFElectraPreTrainedModel.get_extended_attention_mask.
  destruct m as [[t|t]|]; cbn; unfold tf.newaxis_1_2;
    repeat case_match; cbn; congruence.
Qed.

Lemma Dense_call_raises (d : Dense.t) (x : tensor F32.t) (e : exception) :
  Dense.call d x = Raise e -> e = InvalidArgumentError.
Proof. unfold Dense.call. repeat case_match; congruence. Qed.

Lemma project_raises (self : TFElectraModel.t) (h : tensor F32.t)
    (training : bool) (e : exception) :
  TFElectraModel.project self h training = Raise e ->
  e = IndexError \/ e = InvalidArgumentError.
Proof.
  unfold TFElectraModel.project. destruct (last (shape h)); cbn.
  - case_decide; [|discriminate]. intros ->%Dense_call_raises. now right.
  - intros [= <-]. now left.
Qed.

Lemma run_raises (self : TFElectraModel.t) (f : fields) (s : list nat)
    (training : bool) (e : exception) :
  TFElectraModel.run self f s training = Raise e ->
  e = InvalidArgumentError \/ e = NotImplementedError \/ e = IndexError
  \/ TFElectraModel.embeddings self
       [input_ids f; position_ids f;
        Some (TFElectraModel.or_fill (token_type_ids f) s 0); inputs_embeds f]
       training = Raise e
  \/ exists h bias hm, TFElectraModel.encoder self h bias hm training = Raise e.
Proof.
  unfold TFElectraModel.run.
  destruct (TFElectraPreTrainedModel.get_extended_attention_mask _ _)
    as [bias|e0] eqn:Hbias; cbn [mbind result_bind].
  2: { intros [= <-]. left. exact (extended_mask_raises _ _ _ Hbias). }
  destruct (head_mask f); cbn [TFElectraPreTrainedModel.get_head_mask
                                 mbind result_bind].
  { intros [= <-]. tauto. }
  destruct (TFElectraModel.embeddings self _ training) as [hs|e0] eqn:Hemb;
    cbn [mbind result_bind].
  2: { intros [= <-]. tauto. }
  destruct (TFElectraModel.project self hs training) as [h|e0] eqn:Hproj;
    cbn [mbind result_bind].
  2: { intros [= <-]. destruct (project_raises _ _ _ _ Hproj); tauto. }
  intros Henc. do 4 right. eauto.
Qed.

(** C1, as the code has it. When the normalisation of the input goes
    through, a call given both token ids and embeddings raises the "cannot
    specify both" error and a call given neither raises the "have to specify
    either" error. A call given exactly one of them raises neither error,
    the embeddings layer and the encoder not raising it on one source; it
    goes on with the shape of that source, the shape of the token ids or
    the shape of the embeddings without its last axis. *)
Theorem one_source_check (self : TFElectraModel.t) (inputs : call_inputs)
    (kw : keywords) (training : bool) :
  is_Ok (TFElectraModel.normalize_inputs inputs kw) = true ->
  (is_Some (supplied_input_ids inputs) ->
   is_Some (supplied_inputs_embeds inputs kw) ->
   TFElectraModel.call self inputs kw training = Raise (ValueError both_msg))
  /\ (supplied_input_ids inputs = None ->
      supplied_inputs_embeds inputs kw = None ->
      TFElectraModel.call self inputs kw training
      = Raise (ValueError neither_msg))
  /\ (exactly_one_source (supplied_input_ids inputs)
        (supplied_inputs_embeds inputs kw) ->
      (forall msg, msg = both_msg \/ msg = neither_msg ->
         passes_no_source_error self msg ->
         TFElectraModel.call self inputs kw training ≠ Raise (ValueError msg))
      /\ exists f s,
           TFElectraModel.normalize_inputs inputs kw = Ok f
           /\ (forall ids, supplied_input_ids inputs = Some ids ->
                 s = shape_list ids)
           /\ (forall embeds, supplied_inputs_embeds inputs kw = Some embeds ->
                 s = removelast (shape_list embeds))
           /\ TFElectraModel.call self inputs kw training
              = TFElectraModel.run self f s training).
Proof.
  intros Hok.
  destruct (TFElectraModel.normalize_inputs inputs kw) as [f|e] eqn:Hf;
    [clear Hok|discriminate].
  destruct (normalize_inputs_sources _ _ _ Hf) as [Hids Hembeds].
  unfold TFElectraModel.call. rewrite Hf, bind_Ok.
  unfold TFElectraModel.input_shape_of. rewrite Hids, Hembeds.
  split; [|split].
  - intros [ids ->] [embeds ->]. reflexivity.
  - intros -> ->. reflexivity.
  - intros Hone.
    assert (Hrun : exists s,
               (forall ids, supplied_input_ids inputs = Some ids ->
                  s = shape_list ids)
               /\ (forall embeds,
                     supplied_inputs_embeds inputs kw = Some embeds ->
                     s = removelast (shape_list embeds))
               /\ (match supplied_input_ids inputs,
                         supplied_inputs_embeds inputs kw with
                   | Some _, Some _ => Raise (ValueError both_msg)
                   | Some ids, None => Ok (shape_list ids)
                   | None, Some embeds => Ok (removelast (shape_list embeds))
                   | None, None => Raise (ValueError neither_msg)
                   end ≫= fun s => TFElectraModel.run self f s training)
                  = TFElectraModel.run self f s training).
    { destruct Hone as [[[ids Hi] He]|[Hi [embeds He]]]; rewrite Hi, He.
      - exists (shape_list ids). repeat split; congruence.
      - exists (removelast (shape_list embeds)). repeat split; congruence. }
    destruct Hrun as (s & Hsi & Hse & Hcall). split.
    + intros msg Hmsg [Hemb Henc]. rewrite Hcall. intros Hraise.
      destruct (run_raises _ _ _ _ _ Hraise)
        as [?|[?|[?|[Hr|(h & bias & hm & Hr)]]]]; try discriminate.
      * revert Hr. apply Hemb. now rewrite Hids, Hembeds.
      * revert Hr. apply Henc.
    + exists f, s. auto.
Qed.

Lemma example_model_passes_no_source_error (msg : string) :
  passes_no_source_error example_model msg.
Proof.
  split.
  - intros ids positions types embeds training _.
    cbn. unfold example_embeddings. repeat case_match; discriminate.
  - intros h bias hm training. discriminate.
Qed.

Lemma one_source_check_witness :
  is_Ok (TFElectraModel.normalize_inputs
           (Positional [Some example_ids; None; None; None; None;
                        Some example_embeds]) no_keywords) = true
  /\ TFElectraModel.call example_model
       (Positional [Some example_ids; None; None; None; None;
                    Some example_embeds]) no_keywords false
     = Raise (ValueError both_msg)
  /\ TFElectraModel.call example_model (Bare (Some example_ids)) no_keywords
       false ≠ Raise (ValueError both_msg)
  /\ TFElectraModel.call example_model (Bare (Some example_ids)) no_keywords
       false ≠ Raise (ValueError neither_msg).
Proof.
  split; [reflexivity|]. split.
  - apply (one_source_check example_model
             (Positional [Some example_ids; None; None; None; None;
                          Some example_embeds]) no_keywords false eq_refl);
      eexists; reflexivity.
  - destruct (one_source_check example_model (Bare (Some example_ids))
                no_keywords false eq_refl) as (_ & _ & Hone).
    destruct Hone as [Hquiet _].
    { left. split; [eexists; reflexivity|reflexivity]. }
    split; apply Hquiet; auto using example_model_passes_no_source_error.
Defined.

(** With the token ids alone the example call goes past the check. *)
Example one_source_example :
  TFElectraModel.call example_model (Bare (Some example_ids)) no_keywords false
  = Ok [PTensor (zeros [1; 2; 3]); PTuple [zeros [1; 2; 3]]].
Proof. reflexivity. Qed.

(** C1 as stated fails: a sequence of seven entries that holds both token
    ids and embeddings raises "Too many inputs.", not the "cannot specify
    both" error. *)
Lemma both_sources_seven_entries :
  ~ (forall (self : TFElectraModel.t) (inputs : call_inputs) (kw : keywords)
            (training : bool),
        is_Some (supplied_input_ids inputs) ->
        is_Some (supplied_inputs_embeds inputs kw) ->
        TFElectraModel.call self inputs kw training
        = Raise (ValueError both_msg)).
Proof.
  intros H.
  specialize (H example_model
                (Positional [Some example_ids; None; None; None; None;
                             Some example_embeds; None]) no_keywords false).
  assert (Hcall : TFElectraModel.call example_model
                    (Positional [Some example_ids; None; None; None; None;
                                 Some example_embeds; None]) no_keywords false
                  = Raise (AssertionError too_many_msg)) by reflexivity.
  rewrite Hcall in H.
  discriminate H; eexists; reflexivity.
Qed.

(** An empty sequence supplies neither source and raises [IndexError] at
    [inputs[0]], before the check. *)
Lemma empty_sequence_IndexError (self : TFElectraModel.t) (kw : keywords)
    (training : bool) :
  TFElectraModel.call self (Positional []) kw training = Raise IndexError.
Proof. reflexivity. Qed.

(** ** Mapping inputs *)

(** C10. With a mapping input the call reads the six canonical keys only:
    two mappings of at most six entries that agree on these keys give the
    same result, error or not; and a mapping of at most six entries that has
    none of them, with no embeddings passed by keyword, raises the "have to
    specify either" error. *)
Theorem mapping_reads_canonical_keys (self : TFElectraModel.t) (kw : keywords)
    (training : bool) :
  (forall d1 d2 : gmap string (option tf_tensor),
      size d1 <= 6 -> size d2 <= 6 ->
      Forall (fun k => d1 !! k = d2 !! k) canonical_keys ->
      TFElectraModel.call self (Mapping d1) kw training
      = TFElectraModel.call self (Mapping d2) kw training)
  /\ (forall d : gmap string (option tf_tensor),
        size d <= 6 ->
        Forall (fun k => d !! k = None) canonical_keys ->
        kw_inputs_embeds kw = None ->
        TFElectraModel.call self (Mapping d) kw training
        = Raise (ValueError neither_msg)).
Proof.
  split.
  - intros d1 d2 Hs1 Hs2 Hkeys. unfold canonical_keys in Hkeys.
    rewrite !Forall_cons in Hkeys.
    destruct Hkeys as (H1 & H2 & H3 & H4 & H5 & H6 & _).
    unfold TFElectraModel.call, TFElectraModel.normalize_inputs,
      TFElectraModel.dict_get, py_assert.
    rewrite H1, H2, H3, H4, H5, H6.
    now rewrite !bool_decide_eq_true_2 by assumption.
  - intros d Hs Hkeys Hkw. unfold canonical_keys in Hkeys.
    rewrite !Forall_cons in Hkeys.
    destruct Hkeys as (H1 & _ & _ & _ & _ & H6 & _).
    unfold TFElectraModel.call, TFElectraModel.normalize_inputs,
      TFElectraModel.dict_get, py_assert.
    rewrite H1, H6, Hkw.
    now rewrite bool_decide_eq_true_2 by assumption.
Qed.

Lemma mapping_reads_canonical_keys_witness :
  TFElectraModel.call example_model
    (Mapping (list_to_map [("input_ids", Some example_ids); ("extra", None)]))
    no_keywords false
  = TFElectraModel.call example_model
      (Mapping (list_to_map [("input_ids", Some example_ids);
                             ("other", Some example_mask)]))
      no_keywords false
  /\ TFElectraModel.call example_model
       (Mapping (list_to_map [("ids", Some example_ids);
                              ("mask", Some example_mask)]))
       no_keywords false
     = Raise (ValueError neither_msg).
Proof.
  destruct (mapping_reads_canonical_keys example_model no_keywords false)
    as [Hsame Hnone].
  split.
  - apply Hsame; [vm_compute; lia | vm_compute; lia | repeat constructor].
  - apply Hnone; [vm_compute; lia | repeat constructor | reflexivity].
Defined.

(** ** Keras layers: shapes *)

Lemma numel_app (s1 s2 : list nat) : numel (s1 ++ s2) = numel s1 * numel s2.
Proof.
  unfold numel. induction s1 as [|d s1 IH]; cbn [foldr app]; [lia|].
  rewrite IH. lia.
Qed.

Lemma removelast_last (s : list nat) (n : nat) :
  last s = Some n -> s = removelast s ++ [n].
Proof.
  intros H. destruct (last_Some s n) as [[l ->] _]; [exact H|].
  now rewrite removelast_last.
Qed.

Lemma length_bind_const {A B} (f : A -> list B) (l : list A) (n : nat) :
  (forall a, a ∈ l -> length (f a) = n) -> length (l ≫= f) = length l * n.
Proof.
  induction l as [|a l IH]; intros H; [reflexivity|].
  cbn. rewrite length_app, IH, (H a).
  - reflexivity.
  - apply list_elem_of_here.
  - intros a' Ha'. apply H. now apply list_elem_of_further.
Qed.

Lemma Dense_row_length (d : Dense.t) (x : list F32.t) :
  length (Dense.row d x) = Dense.units d.
Proof. unfold Dense.row. now rewrite length_fmap, length_seq. Qed.

(** A dense layer replaces the last dimension by its number of units. *)
Lemma Dense_call_inv (d : Dense.t) (x y : tensor F32.t) :
  Dense.call d x = Ok y ->
  shape y = removelast (shape x) ++ [Dense.units d] /\ well_formed y.
Proof.
  unfold Dense.call. destruct (last (shape x)) as [n|]; [|discriminate].
  case_decide; [|discriminate]. intros [= <-]. cbn [shape]. split; [reflexivity|].
  unfold well_formed. cbn [shape data].
  rewrite numel_app, (length_bind_const _ _ (Dense.units d)).
  - rewrite length_seq. change (numel [Dense.units d]) with (Dense.units d * 1). lia.
  - intros k _. apply Dense_row_length.
Qed.

Lemma Dense_call_Ok (d : Dense.t) (x : tensor F32.t) (n : nat) :
  last (shape x) = Some n -> 2 <= length (shape x) ->
  n = length (Dense.kernel d) ->
  exists y, Dense.call d x = Ok y.
Proof.
  intros Hlast Hrank Hn. unfold Dense.call. rewrite Hlast.
  rewrite decide_True by done. eauto.
Qed.

Lemma LayerNormalization_row_length (ln : LayerNormalization.t)
    (xs : list F32.t) :
  length xs = length (LayerNormalization.gamma ln) ->
  length xs = length (LayerNormalization.beta ln) ->
  length (LayerNormalization.row ln xs) = length xs.
Proof.
  intros Hg Hb. unfold LayerNormalization.row.
  rewrite length_zip_with, length_zip. lia.
Qed.

Lemma length_take_drop {A} (l : list A) (k n rows : nat) :
  length l = rows * n -> k < rows -> length (take n (drop (k * n) l)) = n.
Proof. intros Hl Hk. rewrite length_take, length_drop. nia. Qed.

(** Layer normalisation keeps the shape. *)
Lemma LayerNormalization_call_inv (ln : LayerNormalization.t)
    (x y : tensor F32.t) :
  LayerNormalization.call ln x = Ok y ->
  shape y = shape x /\ (well_formed x -> well_formed y).
Proof.
  unfold LayerNormalization.call.
  destruct (last (shape x)) as [n|] eqn:Hlast; [|discriminate].
  case_decide as Hn; [|discriminate]. intros [= <-]. cbn [shape].
  split; [reflexivity|]. unfold well_formed. cbn [shape data]. intros Hx.
  rewrite (removelast_last _ _ Hlast), numel_app in Hx |- *.
  rewrite removelast_app, app_nil_r in * by discriminate.
  cbn [removelast numel foldr] in *. rewrite Nat.mul_1_r in *.
  rewrite (length_bind_const _ _ n), length_seq; [reflexivity|].
  intros k [_ Hk]%elem_of_seq. cbn in Hk.
  rewrite LayerNormalization_row_length;
    rewrite (length_take_drop _ _ _ _ Hx Hk); tauto.
Qed.

Lemma LayerNormalization_call_Ok (ln : LayerNormalization.t)
    (x : tensor F32.t) (n : nat) :
  last (shape x) = Some n ->
  n = length (LayerNormalization.gamma ln) ->
  n = length (LayerNormalization.beta ln) ->
  exists y, LayerNormalization.call ln x = Ok y.
Proof.
  intros Hlast Hg Hb. unfold LayerNormalization.call. rewrite Hlast.
  rewrite decide_True by done. eauto.
Qed.

(** ** The discriminator head *)

Lemma numel_squeeze (s : list nat) :
  numel (filter (fun d => d ≠ 1) s) = numel s.
Proof.
  unfold numel. induction s as [|d s IH]; [reflexivity|].
  rewrite filter_cons. case_decide as Hd; cbn [foldr]; rewrite IH; [reflexivity|].
  assert (d = 1) as -> by (destruct (decide (d = 1)); tauto). lia.
Qed.

Section DiscriminatorHead.
Context `{Activations} (c : ElectraConfig).
Context (k1 : list (list F32.t)) (b1 : list F32.t).
Context (k2 : list (list F32.t)) (b2 : list F32.t).
Context (x : tensor F32.t) (mask : option tf_tensor) (act : F32.t -> F32.t).
Context (batch seq : nat).

(** The configured activation is in the table, the hidden states have the
    width the first dense layer was built for, and the second one was built
    for the hidden width. *)
Hypothesis Hact : ACT2FN !! hidden_act c = Some act.
Hypothesis Hx : shape x = [batch; seq; length k1].
Hypothesis Hk2 : length k2 = hidden_size c.

Local Abbreviation self := (TFElectraDiscriminatorPredictions.init c k1 b1 k2 b2).

(** What [forward] returns on hidden states of shape [batch, seq, width]:
    the logits, with every dimension of size 1 removed from [batch, seq]. *)
Lemma discriminator_forward_shape :
  exists logits,
    TFElectraDiscriminatorPredictions.forward self x mask = Ok logits
    /\ shape logits = filter (fun d => d ≠ 1) [batch; seq]
    /\ well_formed logits.
Proof using Hact Hx Hk2.
  unfold TFElectraDiscriminatorPredictions.forward.
  cbn [TFElectraDiscriminatorPredictions.init
       TFElectraDiscriminatorPredictions.dense
       TFElectraDiscriminatorPredictions.dense_prediction
       TFElectraDiscriminatorPredictions.config].
  destruct (Dense_call_Ok (Dense.init (hidden_size c) k1 b1) x (length k1))
    as [h Hh]; [now rewrite Hx|rewrite Hx; cbn; lia|reflexivity|].
  rewrite Hh. cbn [mbind result_bind].
  destruct (Dense_call_inv _ _ _ Hh) as [Hsh _]. rewrite Hx in Hsh.
  cbn [removelast app Dense.init Dense.units] in Hsh.
  unfold py_getitem. rewrite Hact. cbn [mbind result_bind].
  destruct (Dense_call_Ok (Dense.init 1 k2 b2) (tensor_map act h)
              (hidden_size c)) as [l Hl];
    [cbn [tensor_map shape]; now rewrite Hsh
    |cbn [tensor_map shape]; rewrite Hsh; cbn; lia
    |now rewrite <- Hk2|].
  rewrite Hl. cbn [mbind result_bind].
  destruct (Dense_call_inv _ _ _ Hl) as [Hsl Hwl].
  cbn [tensor_map shape] in Hsl. rewrite Hsh in Hsl.
  cbn [removelast app Dense.init Dense.units] in Hsl.
  eexists. split; [reflexivity|]. unfold tf.squeeze, well_formed in *.
  cbn [shape data]. split; [|now rewrite numel_squeeze].
  rewrite Hsl, !filter_cons, filter_nil.
  now rewrite (decide_False (P := 1 ≠ 1)) by tauto.
Qed.

(** Where both dimensions differ from 1 the logits have shape
    [batch, seq]. *)
Lemma discriminator_forward_shape_large :
  batch ≠ 1 -> seq ≠ 1 ->
  exists logits,
    TFElectraDiscriminatorPredictions.forward self x mask = Ok logits
    /\ shape logits = [batch; seq].
Proof using Hact Hx Hk2.
  intros Hb Hs. destruct discriminator_forward_shape as (logits & Hf & Hshape & _).
  exists logits. split; [exact Hf|]. rewrite Hshape, !filter_cons, filter_nil.
  now rewrite !decide_True by assumption.
Qed.

(** C4, at the input where the code leaves the claim. For a batch of one
    sequence, of a length other than 1, [forward] returns logits of shape
    [seq]: [tf.squeeze] takes the batch dimension away with the trailing
    one, and the shape is not [1, seq]. *)
Theorem discriminator_forward_batch_of_one :
  batch = 1 -> seq ≠ 1 ->
  exists logits,
    TFElectraDiscriminatorPredictions.forward self x mask = Ok logits
    /\ shape logits = [seq]
    /\ shape logits ≠ [batch; seq].
Proof using Hact Hx Hk2.
  intros Hb Hs. destruct discriminator_forward_shape as (logits & Hf & Hshape & _).
  exists logits. split; [exact Hf|].
  rewrite Hshape, Hb, !filter_cons, filter_nil.
  rewrite (decide_False (P := 1 ≠ 1)) by tauto.
  rewrite decide_True by assumption. split; [reflexivity|discriminate].
Qed.

End DiscriminatorHead.

Lemma discriminator_forward_batch_of_one_witness :
  exists logits,
    TFElectraDiscriminatorPredictions.forward (H := example_ACT2FN)
      example_discriminator_predictions (zeros [1; 8; 3]) None = Ok logits
    /\ shape logits = [8]
    /\ shape logits ≠ [1; 8].
Proof.
  apply (discriminator_forward_batch_of_one (H := example_ACT2FN)
           example_config (example_kernel 3 3) (replicate 3 F32.zero)
           (example_kernel 3 1) [F32.zero] (zeros [1; 8; 3]) None relu 1 8);
    [reflexivity | reflexivity | reflexivity | reflexivity | lia].
Defined.

(** The same on the example head, computed: a batch of one sequence of two
    tokens gives two logits and no batch axis. *)
Example discriminator_forward_example :
  TFElectraDiscriminatorPredictions.forward (H := example_ACT2FN)
    example_discriminator_predictions
    (Tensor [1; 2; 3]
       [F32.one; F32.of_int 2; F32.of_int 3;
        F32.one; F32.of_int (-2); F32.of_int (-3)]) None
  = Ok (Tensor [2] [F32.of_int 18; F32.zero]).
Proof. reflexivity. Qed.

(** ** The generator head *)

(** C8. On hidden states whose last dimension is the input width of the
    dense layer, [forward] returns the layer normalisation of the "gelu"
    entry of the activation table applied to the dense transform; the result
    keeps the leading dimensions and its feature dimension is the configured
    embedding size. Neither the hidden size nor the configured activation
    takes part: a configuration that differs in them gives the same head. *)
Theorem generator_forward_spec `{Activations} (c : ElectraConfig)
    (g b : list F32.t) (k : list (list F32.t)) (b1 : list F32.t)
    (x : tensor F32.t) (gelu : F32.t -> F32.t) :
  ACT2FN !! "gelu" = Some gelu ->
  last (shape x) = Some (length k) -> 2 <= length (shape x) ->
  length g = embedding_size c -> length b = embedding_size c ->
  (exists h y,
      Dense.call (Dense.init (embedding_size c) k b1) x = Ok h
      /\ LayerNormalization.call
           (LayerNormalization.init (layer_norm_eps c) g b)
           (tensor_map gelu h) = Ok y
      /\ TFElectraGeneratorPredictions.forward
           (TFElectraGeneratorPredictions.init c g b k b1) x = Ok y
      /\ shape y = removelast (shape x) ++ [embedding_size c]
      /\ last (shape y) = Some (embedding_size c)
      /\ well_formed y)
  /\ (forall c' : ElectraConfig,
        embedding_size c' = embedding_size c ->
        layer_norm_eps c' = layer_norm_eps c ->
        TFElectraGeneratorPredictions.init c' g b k b1
        = TFElectraGeneratorPredictions.init c g b k b1).
Proof.
  intros Hgelu Hlast Hrank Hg Hb. split.
  - destruct (Dense_call_Ok (Dense.init (embedding_size c) k b1) x (length k))
      as [h Hh]; [exact Hlast|exact Hrank|reflexivity|].
    destruct (Dense_call_inv _ _ _ Hh) as [Hsh Hwh].
    cbn [Dense.init Dense.units] in Hsh.
    assert (Hlh : last (shape (tensor_map gelu h)) = Some (embedding_size c))
      by (cbn [tensor_map shape]; rewrite Hsh; apply last_snoc).
    destruct (LayerNormalization_call_Ok
                (LayerNormalization.init (layer_norm_eps c) g b)
                (tensor_map gelu h) (embedding_size c))
      as [y Hy]; [exact Hlh|now rewrite <- Hg|now rewrite <- Hb|].
    destruct (LayerNormalization_call_inv _ _ _ Hy) as [Hsy Hwy].
    cbn [tensor_map shape] in Hsy.
    exists h, y. split; [exact Hh|]. split; [exact Hy|].
    split; [|split; [|split]].
    + unfold TFElectraGeneratorPredictions.forward.
      cbn [TFElectraGeneratorPredictions.init
           TFElectraGeneratorPredictions.dense
           TFElectraGeneratorPredictions.LayerNorm].
      rewrite Hh. cbn [mbind result_bind]. unfold py_getitem.
      rewrite Hgelu. exact Hy.
    + now rewrite Hsy.
    + rewrite Hsy, Hsh. apply last_snoc.
    + apply Hwy. unfold well_formed in *. cbn [tensor_map shape data].
      now rewrite length_fmap.
  - intros c' He Hl. unfold TFElectraGeneratorPredictions.init.
    now rewrite He, Hl.
Qed.

Lemma generator_forward_spec_witness :
  exists y,
    TFElectraGeneratorPredictions.forward (H := example_ACT2FN)
      example_generator_predictions (zeros [1; 2; 3]) = Ok y
    /\ shape y = [1; 2; 2].
Proof.
  destruct (generator_forward_spec (H := example_ACT2FN) example_config
              (replicate 2 F32.one) (replicate 2 F32.zero)
              (example_kernel 3 2) (replicate 2 F32.zero)
              (zeros [1; 2; 3]) relu)
    as [(h & y & _ & _ & Hf & Hs & _) _];
    [reflexivity | reflexivity | cbn; lia | reflexivity | reflexivity |].
  exists y. split; [exact Hf | exact Hs].
Defined.

(** ** The base model *)

Lemma or_fill_shape (x : option tf_tensor) (s : list nat) (v : Z) :
  (forall m, x = Some m -> tf_shape m = s) ->
  tf_shape (TFElectraModel.or_fill x s v) = s.
Proof. destruct x as [m|]; cbn; [auto|reflexivity]. Qed.

(** The projection is applied exactly when the last dimension of the
    embedding output differs from the configured hidden width. *)
Lemma project_spec (self : TFElectraModel.t) (e : tensor F32.t)
    (training : bool) (w : nat) :
  last (shape e) = Some w ->
  TFElectraModel.project self e training
  = if decide (w = hidden_size (TFElectraModel.config self))
    then Ok e
    else Dense.call (TFElectraModel.embeddings_project self) e.
Proof.
  intros Hw. unfold TFElectraModel.project. rewrite Hw. cbn.
  repeat case_decide; tauto || reflexivity.
Qed.

(** Inside the base model the head mask is looked at once the checks and
    the attention bias are through: from there a head mask that is not
    [None] ends the call. *)
Lemma call_with_head_mask (self : TFElectraModel.t) (inputs : call_inputs)
    (kw : keywords) (training : bool) (f : fields) (batch seq : nat)
    (m : tf_tensor) :
  TFElectraModel.normalize_inputs inputs kw = Ok f ->
  TFElectraModel.input_shape_of f = Ok [batch; seq] ->
  (forall a, attention_mask f = Some a -> tf_shape a = [batch; seq]) ->
  head_mask f = Some m ->
  TFElectraModel.call self inputs kw training = Raise NotImplementedError.
Proof.
  intros Hf Hshape Hmask Hhm.
  destruct (extended_mask_get
              (TFElectraModel.or_fill (attention_mask f) [batch; seq] 1)
              batch seq [batch; seq]) as (bias & Hbias & _);
    [now apply or_fill_shape|].
  unfold TFElectraModel.call. rewrite Hf, bind_Ok, Hshape, bind_Ok.
  unfold TFElectraModel.run. now rewrite Hbias, bind_Ok, Hhm.
Qed.

(** C3. A call with one source of shape [batch, seq] (token ids, or
    embeddings with one more axis), no head mask and a mask of that shape,
    whose embeddings come out with shape [batch, seq, w], is the call of the
    encoder on hidden states [h], on the additive bias of the mask and on
    the head mask of [None]s: [h] is the embedding output itself when [w] is
    the hidden width, and its dense projection when it is not. The tuple
    the call returns starts with a tensor of shape
    [batch, seq, hidden_size]. *)
Theorem base_model_output_shape (c : ElectraConfig)
    (emb : list (option tf_tensor) -> bool -> result (tensor F32.t))
    (k : list (list F32.t)) (b : list F32.t)
    (enc : tensor F32.t -> tensor F32.t -> list (option tf_tensor) -> bool ->
           result (list pyobj))
    (inputs : call_inputs) (kw : keywords) (training : bool) (f : fields)
    (batch seq_len w : nat) (e : tensor F32.t) :
  TFElectraModel.normalize_inputs inputs kw = Ok f ->
  source_of_shape f batch seq_len ->
  head_mask f = None ->
  (forall m, attention_mask f = Some m ->
     tf_shape m = [batch; seq_len] /\ well_formed (tf.cast_float32 m)) ->
  emb [input_ids f; position_ids f;
       Some (TFElectraModel.or_fill (token_type_ids f) [batch; seq_len] 0);
       inputs_embeds f] training = Ok e ->
  shape e = [batch; seq_len; w] -> well_formed e ->
  (w ≠ hidden_size c -> length k = w) ->
  encoder_keeps_shape enc batch seq_len (hidden_size c) (num_hidden_layers c)
    training ->
  exists h bias o rest,
    (w = hidden_size c -> h = e)
    /\ (w ≠ hidden_size c ->
        Dense.call (Dense.init (hidden_size c) k b) e = Ok h)
    /\ TFElectraPreTrainedModel.get_extended_attention_mask
         (Some (TFElectraModel.or_fill (attention_mask f) [batch; seq_len] 1))
         [batch; seq_len] = Ok bias
    /\ TFElectraModel.call (TFElectraModel.init c emb k b enc)
         inputs kw training
       = enc h bias (replicate (num_hidden_layers c) None) training
    /\ TFElectraModel.call (TFElectraModel.init c emb k b enc)
         inputs kw training = Ok (PTensor o :: rest)
    /\ shape o = [batch; seq_len; hidden_size c].
Proof.
  intros Hf Hsrc Hhm Hmask Hemb He Hwe Hk Henc.
  assert (Hshape : TFElectraModel.input_shape_of f = Ok [batch; seq_len]).
  { unfold TFElectraModel.input_shape_of, shape_list.
    destruct Hsrc as [(ids & -> & -> & ->)|(embeds & width & -> & -> & ->)];
      reflexivity. }
  assert (Hlast : last (shape e) = Some w) by now rewrite He.
  assert (Hproj : exists h,
             TFElectraModel.project (TFElectraModel.init c emb k b enc)
               e training = Ok h
             /\ shape h = [batch; seq_len; hidden_size c]
             /\ well_formed h
             /\ (w = hidden_size c -> h = e)
             /\ (w ≠ hidden_size c ->
                 Dense.call (Dense.init (hidden_size c) k b) e = Ok h)).
  { rewrite (project_spec _ _ _ w Hlast).
    cbn [TFElectraModel.init TFElectraModel.config
         TFElectraModel.embeddings_project].
    case_decide as Hw.
    - exists e. subst w. repeat split; tauto || assumption.
    - destruct (Dense_call_Ok (Dense.init (hidden_size c) k b) e w)
        as [h Hh]; [exact Hlast|rewrite He; cbn; lia|cbn; now rewrite Hk|].
      exists h. destruct (Dense_call_inv _ _ _ Hh) as [Hsh Hwh].
      rewrite He in Hsh. repeat split; tauto || assumption. }
  destruct Hproj as (h & Hp & Hsh & Hwh & Hsame & Hdense).
  assert (Hm : tf_shape (TFElectraModel.or_fill (attention_mask f)
                           [batch; seq_len] 1) = [batch; seq_len]
               /\ well_formed
                    (tf.cast_float32
                       (TFElectraModel.or_fill (attention_mask f)
                          [batch; seq_len] 1))).
  { destruct (attention_mask f) as [m|]; [now apply Hmask|].
    split; [reflexivity|]. unfold well_formed. cbn.
    now rewrite length_fmap, length_replicate. }
  destruct Hm as [Hms Hmw].
  destruct (extended_mask_get _ batch seq_len [batch; seq_len] Hms)
    as (bias & Hbias & Hsb & Hdb & _).
  assert (Hwb : well_formed bias).
  { assert (Hcs : shape (tf.cast_float32
                              (TFElectraModel.or_fill (attention_mask f)
                                 [batch; seq_len] 1)) = [batch; seq_len])
      by (destruct (TFElectraModel.or_fill (attention_mask f) _ _);
          exact Hms).
    unfold well_formed in *. rewrite Hdb, length_fmap, Hmw, Hsb, Hcs.
    unfold numel. cbn [foldr]. lia. }
  destruct (Henc h bias Hsh Hwh Hsb Hwb) as (o & rest & Ho & Hso).
  assert (Hcall : TFElectraModel.call (TFElectraModel.init c emb k b enc)
                    inputs kw training
                  = enc h bias (replicate (num_hidden_layers c) None) training).
  { unfold TFElectraModel.call. rewrite Hf, bind_Ok, Hshape, bind_Ok.
    unfold TFElectraModel.run. rewrite Hbias, bind_Ok, Hhm.
    cbn [TFElectraPreTrainedModel.get_head_mask mbind result_bind].
    cbn [TFElectraModel.init TFElectraModel.embeddings].
    rewrite Hemb, bind_Ok.
    fold (TFElectraModel.init c emb k b enc). now rewrite Hp, bind_Ok. }
  exists h, bias, o, rest. repeat split; try assumption.
  now rewrite Hcall.
Qed.

Lemma base_model_output_shape_witness :
  exists h bias o rest,
    (2 = 3 -> h = zeros [1; 2; 2])
    /\ (2 ≠ 3 ->
        Dense.call (Dense.init 3 (example_kernel 2 3) (replicate 3 F32.zero))
          (zeros [1; 2; 2]) = Ok h)
    /\ TFElectraPreTrainedModel.get_extended_attention_mask
         (Some (TFElectraModel.or_fill None [1; 2] 1)) [1; 2] = Ok bias
    /\ TFElectraModel.call example_model (Bare (Some example_ids))
         no_keywords false
       = example_encoder h bias (replicate 2 None) false
    /\ TFElectraModel.call example_model (Bare (Some example_ids))
         no_keywords false = Ok (PTensor o :: rest)
    /\ shape o = [1; 2; 3].
Proof.
  apply (base_model_output_shape example_config (example_embeddings 2)
           (example_kernel 2 3) (replicate 3 F32.zero) example_encoder
           (Bare (Some example_ids)) no_keywords false
           {| input_ids := Some example_ids; attention_mask := None;
              token_type_ids := None; position_ids := None;
              head_mask := None; inputs_embeds := None |}
           1 2 2 (zeros [1; 2; 2])).
  - reflexivity.
  - left. exists example_ids. repeat split.
  - reflexivity.
  - discriminate.
  - reflexivity.
  - reflexivity.
  - reflexivity.
  - reflexivity.
  - intros h bias Hh _ _ _. exists h, [PTuple [h]].
    split; [reflexivity|exact Hh].
Defined.

(** ** The task models *)

Lemma sequence_output_nonempty (hs : list pyobj) (h0 : tensor F32.t) :
  sequence_output hs = Ok h0 -> exists rest, hs = PTensor h0 :: rest.
Proof.
  unfold sequence_output, py_item. destruct hs as [|[t|l] rest]; cbn;
    try discriminate.
  intros [= ->]. eauto.
Qed.

(** A tuple [(x,) + hs[1:]] against [hs]. *)
Lemma first_replaced (hs : list pyobj) (h0 x : tensor F32.t) :
  sequence_output hs = Ok h0 ->
  ([PTensor x] ++ drop 1 hs) !! 0 = Some (PTensor x)
  /\ length ([PTensor x] ++ drop 1 hs) = length hs
  /\ forall i, 1 <= i -> ([PTensor x] ++ drop 1 hs) !! i = hs !! i.
Proof.
  intros [rest ->]%sequence_output_nonempty. cbn. repeat split.
  intros [|i] Hi; [lia|reflexivity].
Qed.

(** C9. Whenever the base model returns a tuple and the head returns the
    task output, each of the three task models returns a tuple of the same
    length whose first element is the task output and whose other elements
    are those of the base model's tuple, position by position. *)
Theorem task_models_pass_auxiliary_outputs `{LayerCall}
    (inputs : call_inputs) (kw : keywords) (training : bool)
    (hs : list pyobj) (h0 task : tensor F32.t) :
  sequence_output hs = Ok h0 ->
  (forall self : TFElectraForMaskedLM.t,
      TFElectraModel.call (TFElectraForMaskedLM.generator self)
        inputs kw training = Ok hs ->
      (p ← generator_predictions_call
             (TFElectraForMaskedLM.generator_predictions self) h0 training;
       TFElectraForMaskedLM.generator_lm_head self p training "linear")
      = Ok task ->
      exists out,
        TFElectraForMaskedLM.call self inputs kw training = Ok out
        /\ out !! 0 = Some (PTensor task) /\ length out = length hs
        /\ forall i, 1 <= i -> out !! i = hs !! i)
  /\ (forall self : TFElectraForPreTraining.t,
        TFElectraModel.call (TFElectraForPreTraining.discriminator self)
          inputs kw training = Ok hs ->
        discriminator_predictions_call
          (TFElectraForPreTraining.discriminator_predictions self) h0
          (kw_attention_mask kw) = Ok task ->
        exists out,
          TFElectraForPreTraining.call self inputs kw training = Ok out
          /\ out !! 0 = Some (PTensor task) /\ length out = length hs
          /\ forall i, 1 <= i -> out !! i = hs !! i)
  /\ (forall self : TFElectraForTokenClassification.t,
        TFElectraModel.call (TFElectraForTokenClassification.discriminator self)
          inputs kw training = Ok hs ->
        (d ← TFElectraForTokenClassification.dropout self h0;
         Dense.call (TFElectraForTokenClassification.classifier self) d)
        = Ok task ->
        exists out,
          TFElectraForTokenClassification.call self inputs kw training = Ok out
          /\ out !! 0 = Some (PTensor task) /\ length out = length hs
          /\ forall i, 1 <= i -> out !! i = hs !! i).
Proof.
  intros Hseq. pose proof (first_replaced hs h0 task Hseq) as Hout.
  repeat split; intros self Hbase Hhead.
  - apply bind_Ok_inv in Hhead as (p & Hp & Hhead).
    eexists. split; [|exact Hout].
    unfold TFElectraForMaskedLM.call.
    now rewrite Hbase, bind_Ok, Hseq, bind_Ok, Hp, bind_Ok, Hhead.
  - eexists. split; [|exact Hout].
    unfold TFElectraForPreTraining.call.
    now rewrite Hbase, bind_Ok, Hseq, bind_Ok, Hhead.
  - apply bind_Ok_inv in Hhead as (d & Hd & Hhead).
    eexists. split; [|exact Hout].
    unfold TFElectraForTokenClassification.call.
    now rewrite Hbase, bind_Ok, Hseq, bind_Ok, Hd, bind_Ok, Hhead.
Qed.

(** A task model raises what its base model raises. *)
Lemma task_models_propagate_errors `{LayerCall}
    (inputs : call_inputs) (kw : keywords) (training : bool) (e : exception) :
  (forall self : TFElectraForMaskedLM.t,
      TFElectraModel.call (TFElectraForMaskedLM.generator self)
        inputs kw training = Raise e ->
      TFElectraForMaskedLM.call self inputs kw training = Raise e)
  /\ (forall self : TFElectraForPreTraining.t,
        TFElectraModel.call (TFElectraForPreTraining.discriminator self)
          inputs kw training = Raise e ->
        TFElectraForPreTraining.call self inputs kw training = Raise e)
  /\ (forall self : TFElectraForTokenClassification.t,
        TFElectraModel.call (TFElectraForTokenClassification.discriminator self)
          inputs kw training = Raise e ->
        TFElectraForTokenClassification.call self inputs kw training = Raise e).
Proof.
  repeat split; intros self Hbase;
    unfold TFElectraForMaskedLM.call, TFElectraForPreTraining.call,
      TFElectraForTokenClassification.call; now rewrite Hbase.
Qed.

Lemma task_models_pass_auxiliary_outputs_witness :
  (exists out,
      TFElectraForMaskedLM.call (H := example_LayerCall) example_masked_lm
        (Bare (Some example_ids)) no_keywords false = Ok out
      /\ out !! 0 = Some (PTensor (zeros [1; 2; 4])) /\ length out = 2
      /\ forall i, 1 <= i ->
           out !! i = [PTensor (zeros [1; 2; 3]); PTuple [zeros [1; 2; 3]]] !! i)
  /\ (exists out,
        TFElectraForPreTraining.call (H := example_LayerCall) example_pretraining
          (Bare (Some example_ids)) no_keywords false = Ok out
        /\ out !! 1 = Some (PTuple [zeros [1; 2; 3]]))
  /\ (exists out,
        TFElectraForTokenClassification.call example_token_classification
          (Bare (Some example_ids)) no_keywords false = Ok out
        /\ out !! 1 = Some (PTuple [zeros [1; 2; 3]])).
Proof.
  split; [|split].
  - apply (proj1 (task_models_pass_auxiliary_outputs (H := example_LayerCall)
                    (Bare (Some example_ids)) no_keywords false
                    [PTensor (zeros [1; 2; 3]); PTuple [zeros [1; 2; 3]]]
                    (zeros [1; 2; 3]) (zeros [1; 2; 4]) eq_refl)
             example_masked_lm); reflexivity.
  - destruct (proj1 (proj2
               (task_models_pass_auxiliary_outputs (H := example_LayerCall)
                  (Bare (Some example_ids)) no_keywords false
                  [PTensor (zeros [1; 2; 3]); PTuple [zeros [1; 2; 3]]]
                  (zeros [1; 2; 3]) (zeros [2]) eq_refl))
               example_pretraining) as (out & Hcall & _ & _ & Hrest);
      [reflexivity | reflexivity |].
    exists out. split; [exact Hcall|]. now rewrite Hrest by lia.
  - destruct (proj2 (proj2
               (task_models_pass_auxiliary_outputs (H := example_LayerCall)
                  (Bare (Some example_ids)) no_keywords false
                  [PTensor (zeros [1; 2; 3]); PTuple [zeros [1; 2; 3]]]
                  (zeros [1; 2; 3]) (zeros [1; 2; 2]) eq_refl))
               example_token_classification)
      as (out & Hcall & _ & _ & Hrest); [reflexivity | reflexivity |].
    exists out. split; [exact Hcall|]. now rewrite Hrest by lia.
Defined.

(** ** The masked-LM scores and the bias *)

(** C5, where the code leaves the claim. The scores that
    [TFElectraForMaskedLM.call] returns are the output of the tied
    projection as it is: the value of [generator_lm_head_bias] has no part
    in the result, before [build] or after it. On the example model with a
    bias of ones the call returns the projected scores, all zero, where the
    claim has them one higher. *)
Theorem masked_lm_bias_not_added `{LayerCall} :
  (forall (self : TFElectraForMaskedLM.t) (b : option (list F32.t))
          (inputs : call_inputs) (kw : keywords) (training : bool),
      TFElectraForMaskedLM.call (TFElectraForMaskedLM.set_bias self b)
        inputs kw training
      = TFElectraForMaskedLM.call self inputs kw training)
  /\ (forall self : TFElectraForMaskedLM.t,
        TFElectraForMaskedLM.generator_lm_head_bias
          (TFElectraForMaskedLM.build self)
        = Some (replicate (TFElectraForMaskedLM.vocab_size self) F32.zero))
  /\ exists scores claimed rest,
       TFElectraForMaskedLM.call (H := example_LayerCall)
         (TFElectraForMaskedLM.set_bias example_masked_lm
            (Some (replicate 4 F32.one)))
         (Bare (Some example_ids)) no_keywords false
       = Ok (PTensor scores :: rest)
       /\ spec_masked_lm_scores scores (Some (replicate 4 F32.one))
          = Ok claimed
       /\ data scores = replicate 8 F32.zero
       /\ data claimed = replicate 8 F32.one
       /\ scores ≠ claimed.
Proof.
  split; [reflexivity|]. split; [reflexivity|].
  exists (zeros [1; 2; 4]), (Tensor [1; 2; 4] (replicate 8 F32.one)),
    [PTuple [zeros [1; 2; 3]]].
  repeat split; try reflexivity. discriminate.
Qed.

(** * Further properties of the module *)

(** ** The three forms of the input *)

Lemma item_if_longer_lookup (l : list (option tf_tensor)) (i : nat)
    (dflt : option tf_tensor) :
  TFElectraModel.item_if_longer l i dflt = Ok (from_option id dflt (l !! i)).
Proof.
  unfold TFElectraModel.item_if_longer, py_item. case_decide as Hlt.
  - destruct (lookup_lt_is_Some_2 l i Hlt) as [v ->]. reflexivity.
  - rewrite lookup_ge_None_2 by lia. reflexivity.
Qed.

(** X1. A sequence of one to six entries is handled as its first entry
    passed alone, with the other entries in the place of the keywords of
    their positions; a mapping of at most six entries is handled as the
    value under "input_ids" passed alone, with the values under the other
    five keys in the place of the keywords of their names. *)
Theorem input_forms_reduce_to_bare (self : TFElectraModel.t) (kw : keywords)
    (training : bool) :
  (forall ids rest, length rest <= 5 ->
      TFElectraModel.call self (Positional (ids :: rest)) kw training
      = TFElectraModel.call self (Bare ids) (sequence_keywords rest kw) training)
  /\ (forall d : gmap string (option tf_tensor), size d <= 6 ->
        TFElectraModel.call self (Mapping d) kw training
        = TFElectraModel.call self (Bare (mjoin (d !! "input_ids")))
            (mapping_keywords d kw) training).
Proof.
  split.
  - intros ids rest Hlen. unfold TFElectraModel.call. f_equal.
    cbn [TFElectraModel.normalize_inputs py_item lookup list_lookup].
    rewrite bind_Ok, !item_if_longer_lookup, !bind_Ok. unfold py_assert.
    rewrite bool_decide_eq_true_2 by (cbn; lia). reflexivity.
  - intros d Hsize. unfold TFElectraModel.call. f_equal.
    cbn [TFElectraModel.normalize_inputs]. unfold py_assert.
    rewrite bool_decide_eq_true_2 by exact Hsize.
    unfold TFElectraModel.dict_get, mapping_keywords.
    now destruct (d !! "input_ids").
Qed.

Lemma input_forms_reduce_to_bare_witness :
  TFElectraModel.call example_model
    (Positional [Some example_ids; Some example_mask]) no_keywords false
  = TFElectraModel.call example_model (Bare (Some example_ids))
      (sequence_keywords [Some example_mask] no_keywords) false
  /\ TFElectraModel.call example_model
       (Mapping (list_to_map [("input_ids", Some example_ids);
                              ("attention_mask", Some example_mask)]))
       no_keywords false
     = TFElectraModel.call example_model
         (Bare (mjoin ((list_to_map [("input_ids", Some example_ids);
                                     ("attention_mask", Some example_mask)]
                        : gmap string (option tf_tensor)) !! "input_ids")))
         (mapping_keywords
            (list_to_map [("input_ids", Some example_ids);
                          ("attention_mask", Some example_mask)]) no_keywords)
         false.
Proof.
  destruct (input_forms_reduce_to_bare example_model no_keywords false)
    as [Hseq Hmap].
  split; [apply Hseq; cbn; lia | apply Hmap; vm_compute; lia].
Defined.

Lemma item_if_longer_shadow (l : list (option tf_tensor)) (i : nat)
    (a b : option tf_tensor) :
  (length l <= i -> a = b) ->
  TFElectraModel.item_if_longer l i a = TFElectraModel.item_if_longer l i b.
Proof.
  intros H. unfold TFElectraModel.item_if_longer.
  case_decide; [reflexivity|]. rewrite H by lia. reflexivity.
Qed.

(** X2. A keyword whose position the sequence fills is never read: two
    calls on the same sequence give the same result when their keywords
    agree from the length of the sequence on. *)
Theorem positional_entries_shadow_keywords (self : TFElectraModel.t)
    (l : list (option tf_tensor)) (kw1 kw2 : keywords) (training : bool) :
  (forall i, length l <= i -> kw_field i kw1 = kw_field i kw2) ->
  TFElectraModel.call self (Positional l) kw1 training
  = TFElectraModel.call self (Positional l) kw2 training.
Proof.
  intros H. unfold TFElectraModel.call. f_equal.
  cbn [TFElectraModel.normalize_inputs].
  rewrite (item_if_longer_shadow l 1 _ (kw_attention_mask kw2)) by apply (H 1).
  rewrite (item_if_longer_shadow l 2 _ (kw_token_type_ids kw2)) by apply (H 2).
  rewrite (item_if_longer_shadow l 3 _ (kw_position_ids kw2)) by apply (H 3).
  rewrite (item_if_longer_shadow l 4 _ (kw_head_mask kw2)) by apply (H 4).
  rewrite (item_if_longer_shadow l 5 _ (kw_inputs_embeds kw2)) by apply (H 5).
  reflexivity.
Qed.

Lemma positional_entries_shadow_keywords_witness :
  TFElectraModel.call example_model
    (Positional [Some example_ids; Some example_mask])
    (with_attention_mask no_keywords (Some example_ids)) false
  = TFElectraModel.call example_model
      (Positional [Some example_ids; Some example_mask]) no_keywords false.
Proof.
  apply (positional_entries_shadow_keywords example_model
           [Some example_ids; Some example_mask]
           (with_attention_mask no_keywords (Some example_ids)) no_keywords
           false).
  intros [|[|i]] Hi; cbn in Hi; [lia|lia|]. now destruct i as [|[|[|[|i]]]].
Defined.

Lemma dict_get_shadow (d : gmap string (option tf_tensor)) (k : string)
    (a b : option tf_tensor) :
  is_Some (d !! k) \/ a = b ->
  TFElectraModel.dict_get d k a = TFElectraModel.dict_get d k b.
Proof.
  unfold TFElectraModel.dict_get. intros [[v ->]| ->]; reflexivity.
Qed.

(** X3. A keyword whose key the mapping has is never read, also when the
    value under the key is [None]: two calls on the same mapping give the
    same result when their keywords agree on the keys the mapping lacks. *)
Theorem mapping_keys_shadow_keywords (self : TFElectraModel.t)
    (d : gmap string (option tf_tensor)) (kw1 kw2 : keywords) (training : bool) :
  Forall (fun kg => is_Some (d !! kg.1) \/ kg.2 kw1 = kg.2 kw2) keyword_keys ->
  TFElectraModel.call self (Mapping d) kw1 training
  = TFElectraModel.call self (Mapping d) kw2 training.
Proof.
  unfold keyword_keys. rewrite !Forall_cons. cbn [fst snd].
  intros (H1 & H2 & H3 & H4 & H5 & _).
  unfold TFElectraModel.call. f_equal. cbn [TFElectraModel.normalize_inputs].
  rewrite (dict_get_shadow d "attention_mask" _ _ H1),
    (dict_get_shadow d "token_type_ids" _ _ H2),
    (dict_get_shadow d "position_ids" _ _ H3),
    (dict_get_shadow d "head_mask" _ _ H4),
    (dict_get_shadow d "inputs_embeds" _ _ H5).
  reflexivity.
Qed.

Lemma mapping_keys_shadow_keywords_witness :
  TFElectraModel.call example_model
    (Mapping (list_to_map [("input_ids", Some example_ids);
                           ("attention_mask", None)]))
    (with_attention_mask no_keywords (Some example_mask)) false
  = TFElectraModel.call example_model
      (Mapping (list_to_map [("input_ids", Some example_ids);
                             ("attention_mask", None)]))
      no_keywords false.
Proof.
  apply (mapping_keys_shadow_keywords example_model
           (list_to_map [("input_ids", Some example_ids);
                         ("attention_mask", None)])
           (with_attention_mask no_keywords (Some example_mask)) no_keywords
           false).
  unfold keyword_keys. repeat (apply Forall_cons; split);
    try apply Forall_nil; try exact I; try (right; reflexivity).
  left. eexists. reflexivity.
Defined.

(** X4. An empty list or tuple raises [IndexError] in the base model and
    in the three task models, whatever the keywords. *)
Theorem empty_sequence_rejected `{LayerCall} (kw : keywords) (training : bool) :
  (forall self, TFElectraModel.call self (Positional []) kw training
                = Raise IndexError)
  /\ (forall lm, TFElectraForMaskedLM.call lm (Positional []) kw training
                 = Raise IndexError)
  /\ (forall pt, TFElectraForPreTraining.call pt (Positional []) kw training
                 = Raise IndexError)
  /\ (forall tc, TFElectraForTokenClassification.call tc (Positional []) kw
                   training = Raise IndexError).
Proof. repeat split. Qed.

(** ** Defaults *)

(** X5. For token ids passed alone, leaving the attention mask out is the
    same as passing a mask of ones of the shape of the ids, and leaving the
    segment ids out is the same as passing zeros of that shape. *)
Theorem omitted_mask_and_types_defaults (self : TFElectraModel.t)
    (ids : tf_tensor) (kw : keywords) (training : bool) :
  (kw_attention_mask kw = None ->
   TFElectraModel.call self (Bare (Some ids)) kw training
   = TFElectraModel.call self (Bare (Some ids))
       (with_attention_mask kw (Some (tf.fill (shape_list ids) 1))) training)
  /\ (kw_token_type_ids kw = None ->
      TFElectraModel.call self (Bare (Some ids)) kw training
      = TFElectraModel.call self (Bare (Some ids))
          (with_token_type_ids kw (Some (tf.fill (shape_list ids) 0))) training).
Proof.
  split; intros Hnone; unfold TFElectraModel.call;
    cbn [TFElectraModel.normalize_inputs mbind result_bind
         with_attention_mask with_token_type_ids
         kw_attention_mask kw_token_type_ids kw_position_ids kw_head_mask
         kw_inputs_embeds];
    unfold TFElectraModel.input_shape_of;
    cbn [input_ids inputs_embeds];
    destruct (kw_inputs_embeds kw); try reflexivity;
    cbn [mbind result_bind]; unfold TFElectraModel.run;
    cbn [attention_mask token_type_ids head_mask input_ids position_ids
         inputs_embeds]; rewrite Hnone; reflexivity.
Qed.

Lemma omitted_mask_and_types_defaults_witness :
  TFElectraModel.call example_model (Bare (Some example_ids)) no_keywords false
  = TFElectraModel.call example_model (Bare (Some example_ids))
      (with_attention_mask no_keywords (Some (tf.fill [1; 2] 1))) false
  /\ TFElectraModel.call example_model (Bare (Some example_ids)) no_keywords
       false
     = TFElectraModel.call example_model (Bare (Some example_ids))
         (with_token_type_ids no_keywords (Some (tf.fill [1; 2] 0))) false.
Proof.
  destruct (omitted_mask_and_types_defaults example_model example_ids
              no_keywords false) as [Hmask Htypes].
  split; [apply Hmask | apply Htypes]; reflexivity.
Defined.

(** ** The attention mask and its rank *)

Lemma extended_mask_of_rank_two (mask : tf_tensor) (input_shape : list nat)
    (d0 d1 : nat) (rest : list nat) :
  tf_shape mask = d0 :: d1 :: rest ->
  exists bias,
    TFElectraPreTrainedModel.get_extended_attention_mask (Some mask)
      input_shape = Ok bias
    /\ shape bias = d0 :: 1 :: 1 :: d1 :: rest
    /\ data bias
       = TFElectraPreTrainedModel.bias_of <$> data (tf.cast_float32 mask).
Proof.
  intros Hs. unfold TFElectraPreTrainedModel.get_extended_attention_mask.
  destruct mask as [t|t]; cbn in Hs; unfold tf.tf_newaxis_1_2, tf.newaxis_1_2;
    rewrite Hs; eexists; (split; [reflexivity|]); split; reflexivity.
Qed.

Lemma extended_mask_Ok (mask : tf_tensor) (s : list nat) :
  2 <= length (tf_shape mask) ->
  exists bias,
    TFElectraPreTrainedModel.get_extended_attention_mask (Some mask) s = Ok bias.
Proof.
  intros Hr. destruct (tf_shape mask) as [|d0 [|d1 rest]] eqn:Hs;
    cbn in Hr; try lia.
  destruct (extended_mask_of_rank_two mask s d0 d1 rest Hs) as (bias & Hb & _).
  eauto.
Qed.

Lemma extended_mask_low_rank (mask : tf_tensor) (s : list nat) :
  length (tf_shape mask) < 2 ->
  TFElectraPreTrainedModel.get_extended_attention_mask (Some mask) s
  = Raise InvalidArgumentError.
Proof.
  intros Hr. unfold TFElectraPreTrainedModel.get_extended_attention_mask.
  destruct mask as [t|t]; cbn in Hr |- *; unfold tf.newaxis_1_2;
    destruct (shape t) as [|d0 [|d1 rest]]; cbn in Hr |- *;
    reflexivity || lia.
Qed.

Lemma extended_mask_Ok_shape (mask : tf_tensor) (s : list nat)
    (bias : tensor F32.t) :
  TFElectraPreTrainedModel.get_extended_attention_mask (Some mask) s = Ok bias ->
  exists d0 d1 rest, tf_shape mask = d0 :: d1 :: rest
                     /\ shape bias = d0 :: 1 :: 1 :: d1 :: rest.
Proof.
  intros Hb. destruct (tf_shape mask) as [|d0 [|d1 rest]] eqn:Hs.
  - rewrite extended_mask_low_rank in Hb by (rewrite Hs; cbn; lia). discriminate.
  - rewrite extended_mask_low_rank in Hb by (rewrite Hs; cbn; lia). discriminate.
  - destruct (extended_mask_of_rank_two mask s d0 d1 rest Hs)
      as (bias' & Hb' & Hshape & _).
    rewrite Hb in Hb'. injection Hb' as <-. eauto.
Qed.

(** X6. [get_extended_attention_mask] fails on a mask of rank below two; on
    a mask of shape [d0, d1, ...] it returns a bias of shape
    [d0, 1, 1, d1, ...] with as many entries, well-formed when the mask
    is. *)
Theorem extended_attention_mask_rank (mask : tf_tensor) (input_shape : list nat) :
  (length (tf_shape mask) < 2 ->
   TFElectraPreTrainedModel.get_extended_attention_mask (Some mask) input_shape
   = Raise InvalidArgumentError)
  /\ (forall d0 d1 rest, tf_shape mask = d0 :: d1 :: rest ->
      exists bias,
        TFElectraPreTrainedModel.get_extended_attention_mask (Some mask)
          input_shape = Ok bias
        /\ shape bias = d0 :: 1 :: 1 :: d1 :: rest
        /\ numel (shape bias) = numel (tf_shape mask)
        /\ (well_formed (tf.cast_float32 mask) -> well_formed bias)).
Proof.
  split; [apply extended_mask_low_rank|].
  intros d0 d1 rest Hs.
  destruct (extended_mask_of_rank_two mask input_shape d0 d1 rest Hs)
    as (bias & Hb & Hshape & Hdata).
  assert (Hn : numel (shape bias) = numel (tf_shape mask))
    by (rewrite Hshape, Hs; unfold numel; cbn [foldr]; lia).
  exists bias. repeat split; try assumption.
  unfold well_formed. rewrite Hn, Hdata, length_fmap.
  now destruct mask.
Qed.

Lemma extended_attention_mask_rank_witness :
  TFElectraPreTrainedModel.get_extended_attention_mask
    (Some (Int32 (Tensor [2] [1; 0]%Z))) [2] = Raise InvalidArgumentError
  /\ exists bias,
       TFElectraPreTrainedModel.get_extended_attention_mask
         (Some example_mask) [1; 2] = Ok bias
       /\ shape bias = [1; 1; 1; 2]
       /\ numel (shape bias) = numel (tf_shape example_mask)
       /\ (well_formed (tf.cast_float32 example_mask) -> well_formed bias).
Proof.
  split.
  - apply (extended_attention_mask_rank (Int32 (Tensor [2] [1; 0]%Z)) [2]).
    cbn. lia.
  - apply (proj2 (extended_attention_mask_rank example_mask [1; 2]) 1 2 []).
    reflexivity.
Defined.

(** X7. Token ids without a batch axis (rank below two), passed alone and
    without a mask, make the call fail at the attention mask: the default
    mask has the rank of the ids. *)
Theorem unbatched_ids_rejected (self : TFElectraModel.t) (ids : tf_tensor)
    (kw : keywords) (training : bool) :
  length (shape_list ids) < 2 ->
  kw_attention_mask kw = None -> kw_inputs_embeds kw = None ->
  TFElectraModel.call self (Bare (Some ids)) kw training
  = Raise InvalidArgumentError.
Proof.
  intros Hr Hm He. unfold TFElectraModel.call.
  cbn [TFElectraModel.normalize_inputs mbind result_bind].
  unfold TFElectraModel.input_shape_of. cbn [input_ids inputs_embeds].
  rewrite He. cbn [mbind result_bind]. unfold TFElectraModel.run.
  cbn [attention_mask]. rewrite Hm. cbn [TFElectraModel.or_fill].
  rewrite extended_mask_low_rank; [reflexivity|exact Hr].
Qed.

Lemma unbatched_ids_rejected_witness :
  TFElectraModel.call example_model (Bare (Some (Int32 (Tensor [2] [3; 1]%Z))))
    no_keywords false = Raise InvalidArgumentError.
Proof.
  apply (unbatched_ids_rejected example_model (Int32 (Tensor [2] [3; 1]%Z))
           no_keywords false); [cbn; lia | reflexivity | reflexivity].
Defined.

(** ** The head mask, through the models *)

(** X8. When the input checks pass and the attention mask has rank two at
    least, a head mask that is not [None] makes the base model raise
    [NotImplementedError], and with it every task model built on it. *)
Theorem head_mask_not_supported `{LayerCall} (self : TFElectraModel.t)
    (inputs : call_inputs) (kw : keywords) (training : bool) (f : fields)
    (s : list nat) (m : tf_tensor) :
  TFElectraModel.normalize_inputs inputs kw = Ok f ->
  TFElectraModel.input_shape_of f = Ok s ->
  2 <= length (tf_shape (TFElectraModel.or_fill (attention_mask f) s 1)) ->
  head_mask f = Some m ->
  TFElectraModel.call self inputs kw training = Raise NotImplementedError
  /\ (forall lm, TFElectraForMaskedLM.generator lm = self ->
        TFElectraForMaskedLM.call lm inputs kw training
        = Raise NotImplementedError)
  /\ (forall pt, TFElectraForPreTraining.discriminator pt = self ->
        TFElectraForPreTraining.call pt inputs kw training
        = Raise NotImplementedError)
  /\ (forall tc, TFElectraForTokenClassification.discriminator tc = self ->
        TFElectraForTokenClassification.call tc inputs kw training
        = Raise NotImplementedError).
Proof.
  intros Hf Hshape Hrank Hhm.
  assert (Hbase : TFElectraModel.call self inputs kw training
                  = Raise NotImplementedError).
  { destruct (extended_mask_Ok _ s Hrank) as [bias Hbias].
    unfold TFElectraModel.call. rewrite Hf, bind_Ok, Hshape, bind_Ok.
    unfold TFElectraModel.run. now rewrite Hbias, bind_Ok, Hhm. }
  split; [exact Hbase|].
  repeat split; intros model <-;
    unfold TFElectraForMaskedLM.call, TFElectraForPreTraining.call,
      TFElectraForTokenClassification.call; now rewrite Hbase.
Qed.

Lemma head_mask_not_supported_witness :
  TFElectraModel.call example_model
    (Positional [Some example_ids; None; None; None; Some example_mask])
    no_keywords false = Raise NotImplementedError
  /\ TFElectraForPreTraining.call (H := example_LayerCall) example_pretraining
       (Positional [Some example_ids; None; None; None; Some example_mask])
       no_keywords false = Raise NotImplementedError.
Proof.
  destruct (head_mask_not_supported (H := example_LayerCall) example_model
              (Positional [Some example_ids; None; None; None;
                           Some example_mask]) no_keywords false
              {| input_ids := Some example_ids; attention_mask := None;
                 token_type_ids := None; position_ids := None;
                 head_mask := Some example_mask; inputs_embeds := None |}
              [1; 2] example_mask)
    as (Hbase & _ & Hpt & _);
    [reflexivity | reflexivity | cbn; lia | reflexivity |].
  split; [exact Hbase | now apply Hpt].
Defined.

(** ** What a call that returns has done *)

Lemma project_Ok_width (c : ElectraConfig)
    (emb : list (option tf_tensor) -> bool -> result (tensor F32.t))
    (k : list (list F32.t)) (b : list F32.t)
    (enc : tensor F32.t -> tensor F32.t -> list (option tf_tensor) -> bool ->
           result (list pyobj))
    (e h : tensor F32.t) (training : bool) :
  TFElectraModel.project (TFElectraModel.init c emb k b enc) e training = Ok h ->
  last (shape h) = Some (hidden_size c).
Proof.
  unfold TFElectraModel.project.
  destruct (last (shape e)) as [w|] eqn:Hw; [|discriminate].
  cbn [from_option mbind result_bind TFElectraModel.init TFElectraModel.config
       TFElectraModel.embeddings_project].
  case_decide as Hne.
  - intros Hd. destruct (Dense_call_inv _ _ _ Hd) as [-> _]. apply last_snoc.
  - intros [= <-]. rewrite Hw. f_equal.
    destruct (decide (w = hidden_size c)); tauto.
Qed.

(** X9. A call of the base model that returns had its input normalised,
    exactly one of token ids and embeddings, and no head mask; what it
    returns is the output of the encoder on hidden states whose last
    dimension is the configured hidden size, on a bias with the two
    inserted axes, and on a head mask of [None], one per layer. *)
Theorem successful_call_inversion (c : ElectraConfig)
    (emb : list (option tf_tensor) -> bool -> result (tensor F32.t))
    (k : list (list F32.t)) (b : list F32.t)
    (enc : tensor F32.t -> tensor F32.t -> list (option tf_tensor) -> bool ->
           result (list pyobj))
    (inputs : call_inputs) (kw : keywords) (training : bool)
    (out : list pyobj) :
  TFElectraModel.call (TFElectraModel.init c emb k b enc) inputs kw training
  = Ok out ->
  exists f h bias d0 d1 rest,
    TFElectraModel.normalize_inputs inputs kw = Ok f
    /\ (is_Some (input_ids f) <-> inputs_embeds f = None)
    /\ head_mask f = None
    /\ shape bias = d0 :: 1 :: 1 :: d1 :: rest
    /\ last (shape h) = Some (hidden_size c)
    /\ enc h bias (replicate (num_hidden_layers c) None) training = Ok out.
Proof.
  unfold TFElectraModel.call.
  intros (f & Hf & Hrest)%bind_Ok_inv.
  apply bind_Ok_inv in Hrest as (s & Hs & Hrun).
  unfold TFElectraModel.run in Hrun.
  apply bind_Ok_inv in Hrun as (bias & Hbias & Hrun).
  apply bind_Ok_inv in Hrun as (hm & Hhm & Hrun).
  apply bind_Ok_inv in Hrun as (e & He & Hrun).
  apply bind_Ok_inv in Hrun as (h & Hh & Henc).
  destruct (extended_mask_Ok_shape _ _ _ Hbias) as (d0 & d1 & rest & _ & Hsb).
  exists f, h, bias, d0, d1, rest.
  split; [exact Hf|]. split.
  { unfold TFElectraModel.input_shape_of in Hs.
    destruct (input_ids f), (inputs_embeds f); try discriminate;
      split; intros Hx; try reflexivity; try (by eexists);
      try discriminate; by destruct Hx. }
  cbn [TFElectraModel.init TFElectraModel.config] in Hhm.
  destruct (head_mask f) as [m|]; [discriminate|]. injection Hhm as <-.
  split; [reflexivity|]. split; [exact Hsb|].
  split; [exact (project_Ok_width _ _ _ _ _ _ _ _ Hh)|exact Henc].
Qed.

Lemma successful_call_inversion_witness :
  exists f h bias d0 d1 rest,
    TFElectraModel.normalize_inputs (Bare (Some example_ids)) no_keywords = Ok f
    /\ (is_Some (input_ids f) <-> inputs_embeds f = None)
    /\ head_mask f = None
    /\ shape bias = d0 :: 1 :: 1 :: d1 :: rest
    /\ last (shape h) = Some 3
    /\ example_encoder h bias (replicate 2 None) false
       = Ok [PTensor (zeros [1; 2; 3]); PTuple [zeros [1; 2; 3]]].
Proof.
  apply (successful_call_inversion example_config (example_embeddings 2)
           (example_kernel 2 3) (replicate 3 F32.zero) example_encoder
           (Bare (Some example_ids)) no_keywords false).
  reflexivity.
Defined.

Lemma example_wide_embeddings_width (l : list (option tf_tensor))
    (training : bool) (e : tensor F32.t) :
  example_wide_embeddings l training = Ok e -> last (shape e) = Some 3.
Proof.
  unfold example_wide_embeddings. repeat case_match; try discriminate.
  intros [= <-]. cbn [zeros shape]. apply last_snoc.
Qed.

(** X10. When the embeddings come out with the hidden width, the weights
    of the projection take no part in the result. *)
Theorem projection_weights_unused (c : ElectraConfig)
    (emb : list (option tf_tensor) -> bool -> result (tensor F32.t))
    (k k' : list (list F32.t)) (b b' : list F32.t)
    (enc : tensor F32.t -> tensor F32.t -> list (option tf_tensor) -> bool ->
           result (list pyobj))
    (inputs : call_inputs) (kw : keywords) (training : bool) :
  (forall l e, emb l training = Ok e -> last (shape e) = Some (hidden_size c)) ->
  TFElectraModel.call (TFElectraModel.init c emb k b enc) inputs kw training
  = TFElectraModel.call (TFElectraModel.init c emb k' b' enc) inputs kw training.
Proof.
  intros Hemb. unfold TFElectraModel.call.
  destruct (TFElectraModel.normalize_inputs inputs kw) as [f|?]; [|reflexivity].
  rewrite !bind_Ok.
  destruct (TFElectraModel.input_shape_of f) as [s|?]; [|reflexivity].
  rewrite !bind_Ok. unfold TFElectraModel.run.
  destruct (TFElectraPreTrainedModel.get_extended_attention_mask _ _)
    as [bias|?]; [|reflexivity].
  rewrite !bind_Ok.
  change (TFElectraModel.config (TFElectraModel.init c emb k b enc)) with c.
  change (TFElectraModel.config (TFElectraModel.init c emb k' b' enc)) with c.
  destruct (TFElectraPreTrainedModel.get_head_mask c (head_mask f))
    as [hm|?]; [|reflexivity].
  rewrite !bind_Ok.
  change (TFElectraModel.embeddings (TFElectraModel.init c emb k b enc))
    with emb.
  change (TFElectraModel.embeddings (TFElectraModel.init c emb k' b' enc))
    with emb.
  match goal with
  | |- context [emb ?l training] =>
      destruct (emb l training) as [e|?] eqn:He; [|reflexivity]
  end.
  rewrite !bind_Ok.
  rewrite !(project_spec _ e training (hidden_size c) (Hemb _ _ He)).
  change (TFElectraModel.config (TFElectraModel.init c emb k b enc)) with c.
  change (TFElectraModel.config (TFElectraModel.init c emb k' b' enc)) with c.
  rewrite !decide_True by reflexivity. reflexivity.
Qed.

Lemma projection_weights_unused_witness :
  TFElectraModel.call
    (TFElectraModel.init example_config example_wide_embeddings
       (example_kernel 3 3) (replicate 3 F32.zero) example_encoder)
    (Bare (Some example_ids)) no_keywords false
  = TFElectraModel.call
      (TFElectraModel.init example_config example_wide_embeddings
         [] [] example_encoder)
      (Bare (Some example_ids)) no_keywords false.
Proof.
  apply (projection_weights_unused example_config example_wide_embeddings
           (example_kernel 3 3) [] (replicate 3 F32.zero) [] example_encoder
           (Bare (Some example_ids)) no_keywords false).
  intros l e. apply example_wide_embeddings_width.
Defined.

(** ** The heads, token by token *)

Lemma bind_rows {A B} (f : A -> list B) (n : nat) (l : list A) (k : nat) (a : A) :
  (forall x, length (f x) = n) -> l !! k = Some a ->
  take n (drop (k * n) (l ≫= f)) = f a.
Proof.
  intros Hlen. revert k. induction l as [|a0 l IH]; intros k Hk; [done|].
  rewrite bind_cons. destruct k as [|k]; cbn in Hk.
  - injection Hk as ->. cbn [Nat.mul drop]. now apply take_app_length'.
  - cbn [Nat.mul]. rewrite drop_app_add' by now rewrite Hlen.
    now apply IH.
Qed.

Lemma bind_singletons {A B} (g : A -> B) (l : list A) :
  l ≫= (fun a => [g a]) = g <$> l.
Proof.
  induction l as [|a l IH]; [reflexivity|]. rewrite bind_cons, IH. reflexivity.
Qed.

Lemma Dense_call_eq (d : Dense.t) (x : tensor F32.t) (n : nat) :
  last (shape x) = Some n -> 2 <= length (shape x) ->
  n = length (Dense.kernel d) ->
  Dense.call d x
  = Ok (Tensor (removelast (shape x) ++ [Dense.units d])
          (seq 0 (numel (removelast (shape x)))
             ≫= fun k => Dense.row d (token_row n k (data x)))).
Proof.
  intros Hlast Hrank Hn. unfold Dense.call. rewrite Hlast.
  now rewrite decide_True by done.
Qed.

Lemma LayerNormalization_call_eq (ln : LayerNormalization.t)
    (x : tensor F32.t) (n : nat) :
  last (shape x) = Some n ->
  n = length (LayerNormalization.gamma ln) ->
  n = length (LayerNormalization.beta ln) ->
  LayerNormalization.call ln x
  = Ok (Tensor (shape x)
          (seq 0 (numel (removelast (shape x)))
             ≫= fun k => LayerNormalization.row ln (token_row n k (data x)))).
Proof.
  intros Hlast Hg Hb. unfold LayerNormalization.call. rewrite Hlast.
  now rewrite decide_True by done.
Qed.

Lemma Dense_rows_map (d : Dense.t) (g : F32.t -> F32.t) (x : list F32.t)
    (n rows k : nat) :
  k < rows ->
  token_row (Dense.units d) k
    (g <$> (seq 0 rows ≫= fun k => Dense.row d (token_row n k x)))
  = g <$> Dense.row d (token_row n k x).
Proof.
  intros Hk. unfold token_row at 1. rewrite <- fmap_drop, <- fmap_take. f_equal.
  apply (bind_rows (fun k => Dense.row d (token_row n k x))).
  - intros j. apply Dense_row_length.
  - now apply lookup_seq_lt.
Qed.

Section DiscriminatorTokens.
Context `{Activations} (c : ElectraConfig).
Context (k1 : list (list F32.t)) (b1 : list F32.t).
Context (k2 : list (list F32.t)) (b2 : list F32.t).
Context (x : tensor F32.t) (mask : option tf_tensor) (act : F32.t -> F32.t).
Context (batch seq_len : nat).
Hypothesis Hact : ACT2FN !! hidden_act c = Some act.
Hypothesis Hx : shape x = [batch; seq_len; length k1].
Hypothesis Hk2 : length k2 = hidden_size c.

(** X11. The discriminator head works token by token: logit [k] is a
    function of the hidden vector of token [k] alone, the second dense
    layer applied to the activation of the first. *)
Theorem discriminator_logit_per_token :
  exists logits,
    TFElectraDiscriminatorPredictions.forward
      (TFElectraDiscriminatorPredictions.init c k1 b1 k2 b2) x mask = Ok logits
    /\ data logits
       = (fun k => discriminator_token_logit
                     (TFElectraDiscriminatorPredictions.init c k1 b1 k2 b2) act
                     (token_row (length k1) k (data x)))
           <$> seq 0 (batch * seq_len).
Proof using Hact Hx Hk2.
  unfold TFElectraDiscriminatorPredictions.forward.
  cbn [TFElectraDiscriminatorPredictions.init
       TFElectraDiscriminatorPredictions.dense
       TFElectraDiscriminatorPredictions.dense_prediction
       TFElectraDiscriminatorPredictions.config].
  rewrite (Dense_call_eq _ x (length k1));
    [|now rewrite Hx|rewrite Hx; cbn; lia|reflexivity].
  rewrite bind_Ok. unfold py_getitem. rewrite Hact, bind_Ok.
  rewrite Hx. cbn [removelast app Dense.init Dense.units].
  rewrite (Dense_call_eq _ _ (hidden_size c));
    [|reflexivity|cbn; lia|now rewrite <- Hk2].
  rewrite bind_Ok. eexists. split; [reflexivity|].
  cbn [tf.squeeze tensor_map shape data removelast app Dense.init Dense.units].
  replace (numel [batch; seq_len]) with (batch * seq_len)
    by (unfold numel; cbn [foldr]; lia).
  etrans; [|apply bind_singletons]. apply Forall_bind_ext, Forall_forall.
  intros k [_ Hk]%elem_of_seq. cbn in Hk.
  pose proof (Dense_rows_map (Dense.init (hidden_size c) k1 b1) act (data x)
                (length k1) (batch * seq_len) k Hk) as Hrow.
  cbn [Dense.init Dense.units] in Hrow. rewrite Hrow. reflexivity.
Qed.
End DiscriminatorTokens.

Lemma discriminator_logit_per_token_witness :
  exists logits,
    TFElectraDiscriminatorPredictions.forward (H := example_ACT2FN)
      example_discriminator_predictions (zeros [2; 2; 3]) None = Ok logits
    /\ data logits
       = (fun k => discriminator_token_logit example_discriminator_predictions
                     relu (token_row 3 k (data (zeros [2; 2; 3]))))
           <$> seq 0 (2 * 2).
Proof.
  apply (discriminator_logit_per_token (H := example_ACT2FN) example_config
           (example_kernel 3 3) (replicate 3 F32.zero)
           (example_kernel 3 1) [F32.zero] (zeros [2; 2; 3]) None relu 2 2);
    reflexivity.
Defined.

(** X12. The generator head works token by token: the output vector of
    token [j] is the layer normalisation of the "gelu" of the dense
    transform of the hidden vector of token [j] alone. *)
Theorem generator_vector_per_token `{Activations} (c : ElectraConfig)
    (g b : list F32.t) (k : list (list F32.t)) (b1 : list F32.t)
    (x : tensor F32.t) (gelu : F32.t -> F32.t) :
  ACT2FN !! "gelu" = Some gelu ->
  last (shape x) = Some (length k) -> 2 <= length (shape x) ->
  length g = embedding_size c -> length b = embedding_size c ->
  exists y,
    TFElectraGeneratorPredictions.forward
      (TFElectraGeneratorPredictions.init c g b k b1) x = Ok y
    /\ data y
       = seq 0 (numel (removelast (shape x)))
           ≫= fun j => generator_token_vector
                         (TFElectraGeneratorPredictions.init c g b k b1) gelu
                         (token_row (length k) j (data x)).
Proof.
  intros Hgelu Hlast Hrank Hg Hb.
  unfold TFElectraGeneratorPredictions.forward.
  cbn [TFElectraGeneratorPredictions.init TFElectraGeneratorPredictions.dense
       TFElectraGeneratorPredictions.LayerNorm].
  rewrite (Dense_call_eq (Dense.init (embedding_size c) k b1) x (length k)
             Hlast Hrank eq_refl), bind_Ok.
  unfold py_getitem. rewrite Hgelu, bind_Ok.
  rewrite (LayerNormalization_call_eq _ _ (embedding_size c));
    [|cbn [tensor_map shape Dense.init Dense.units]; apply last_snoc
     |now rewrite <- Hg|now rewrite <- Hb].
  eexists. split; [reflexivity|].
  cbn [tensor_map shape data Dense.init Dense.units].
  rewrite removelast_app, app_nil_r by discriminate.
  apply Forall_bind_ext, Forall_forall. intros j [_ Hj]%elem_of_seq. cbn in Hj.
  unfold generator_token_vector.
  cbn [TFElectraGeneratorPredictions.LayerNorm TFElectraGeneratorPredictions.dense].
  f_equal.
  apply (Dense_rows_map (Dense.init (embedding_size c) k b1) gelu (data x)
           (length k) _ j Hj).
Qed.

Lemma generator_vector_per_token_witness :
  exists y,
    TFElectraGeneratorPredictions.forward (H := example_ACT2FN)
      example_generator_predictions (zeros [1; 2; 3]) = Ok y
    /\ data y
       = seq 0 (numel (removelast [1; 2; 3]))
           ≫= fun j => generator_token_vector example_generator_predictions
                         relu (token_row 3 j (data (zeros [1; 2; 3]))).
Proof.
  apply (generator_vector_per_token (H := example_ACT2FN) example_config
           (replicate 2 F32.one) (replicate 2 F32.zero)
           (example_kernel 3 2) (replicate 2 F32.zero)
           (zeros [1; 2; 3]) relu);
    [reflexivity | reflexivity | cbn; lia | reflexivity | reflexivity].
Defined.

(** X13. When the configured activation is not in the table, the
    discriminator head raises [KeyError] at the call, after its first dense
    layer has accepted the input, and the masked-LM model raises it at
    construction. *)
Theorem unknown_activation `{Activations} (c : ElectraConfig) :
  ACT2FN !! hidden_act c = None ->
  (forall k1 b1 k2 b2 x mask,
      last (shape x) = Some (length k1) -> 2 <= length (shape x) ->
      TFElectraDiscriminatorPredictions.forward
        (TFElectraDiscriminatorPredictions.init c k1 b1 k2 b2) x mask
      = Raise (KeyError (hidden_act c)))
  /\ (forall gen head input_embeddings,
        TFElectraForMaskedLM.init c gen head input_embeddings
        = Raise (KeyError (hidden_act c))).
Proof.
  intros Hnone. split.
  - intros k1 b1 k2 b2 x mask Hlast Hrank.
    unfold TFElectraDiscriminatorPredictions.forward.
    cbn [TFElectraDiscriminatorPredictions.init
         TFElectraDiscriminatorPredictions.dense
         TFElectraDiscriminatorPredictions.config].
    destruct (Dense_call_Ok (Dense.init (hidden_size c) k1 b1) x (length k1)
                Hlast Hrank eq_refl) as [h ->].
    rewrite bind_Ok. unfold py_getitem. now rewrite Hnone.
  - intros gen head input_embeddings. unfold TFElectraForMaskedLM.init, py_getitem.
    now rewrite Hnone.
Qed.

Lemma unknown_activation_witness :
  TFElectraDiscriminatorPredictions.forward (H := example_ACT2FN)
    (TFElectraDiscriminatorPredictions.init
       {| vocab_size := 4; embedding_size := 2; hidden_size := 3;
          num_hidden_layers := 2; hidden_act := "tanh";
          layer_norm_eps := F32.one; num_labels := 2 |}
       (example_kernel 3 3) (replicate 3 F32.zero)
       (example_kernel 3 1) [F32.zero]) (zeros [1; 2; 3]) None
  = Raise (KeyError "tanh").
Proof.
  apply (proj1 (unknown_activation (H := example_ACT2FN)
                  {| vocab_size := 4; embedding_size := 2; hidden_size := 3;
                     num_hidden_layers := 2; hidden_act := "tanh";
                     layer_norm_eps := F32.one; num_labels := 2 |} eq_refl));
    [reflexivity | cbn; lia].
Defined.

(** ** The token classifier *)

(** X14. On a sequence output of shape [batch, seq, width] that the dropout
    hands on with its shape, the token classification model returns
    well-formed logits of shape [batch, seq, num_labels] before the
    auxiliary outputs of the base model. *)
Theorem token_classification_logits_shape (c : ElectraConfig)
    (disc : TFElectraModel.t) (drop_layer : tensor F32.t -> result (tensor F32.t))
    (k : list (list F32.t)) (b : list F32.t)
    (inputs : call_inputs) (kw : keywords) (training : bool)
    (hs : list pyobj) (h0 d : tensor F32.t) (batch seq_len : nat) :
  TFElectraModel.call disc inputs kw training = Ok hs ->
  sequence_output hs = Ok h0 ->
  drop_layer h0 = Ok d ->
  shape d = [batch; seq_len; length k] ->
  exists logits,
    TFElectraForTokenClassification.call
      (TFElectraForTokenClassification.init c disc drop_layer k b)
      inputs kw training = Ok (PTensor logits :: drop 1 hs)
    /\ shape logits = [batch; seq_len; num_labels c]
    /\ well_formed logits.
Proof.
  intros Hbase Hseq Hdrop Hd.
  destruct (Dense_call_Ok (Dense.init (num_labels c) k b) d (length k))
    as [logits Hl]; [now rewrite Hd|rewrite Hd; cbn; lia|reflexivity|].
  destruct (Dense_call_inv _ _ _ Hl) as [Hshape Hwf].
  exists logits. split; [|split; [|exact Hwf]].
  - unfold TFElectraForTokenClassification.call.
    cbn [TFElectraForTokenClassification.init
         TFElectraForTokenClassification.discriminator
         TFElectraForTokenClassification.dropout
         TFElectraForTokenClassification.classifier].
    now rewrite Hbase, bind_Ok, Hseq, bind_Ok, Hdrop, bind_Ok, Hl.
  - now rewrite Hshape, Hd.
Qed.

Lemma token_classification_logits_shape_witness :
  exists logits,
    TFElectraForTokenClassification.call example_token_classification
      (Bare (Some example_ids)) no_keywords false
    = Ok (PTensor logits :: drop 1 [PTensor (zeros [1; 2; 3]);
                                    PTuple [zeros [1; 2; 3]]])
    /\ shape logits = [1; 2; 2]
    /\ well_formed logits.
Proof.
  apply (token_classification_logits_shape example_config example_model Ok
           (example_kernel 3 2) (replicate 2 F32.zero)
           (Bare (Some example_ids)) no_keywords false
           [PTensor (zeros [1; 2; 3]); PTuple [zeros [1; 2; 3]]]
           (zeros [1; 2; 3]) (zeros [1; 2; 3]) 1 2); reflexivity.
Defined.

(** ** The archive of pretrained models *)

(** X15. Every entry of the archive maps the name
    "google/electra-<size>-<role>", for a size among small, base, large and
    a role among generator, discriminator, to the address made of the S3
    prefix, the name and "/pytorch_model.bin"; each of the six names is
    there, and nothing else. *)
Theorem archive_map_entries :
  (forall name url,
      TF_ELECTRA_PRETRAINED_MODEL_ARCHIVE_MAP !! name = Some url ->
      url = archive_url name
      /\ exists size role, size ∈ electra_sizes /\ role ∈ electra_roles
                           /\ name = electra_name size role)
  /\ (forall size role, size ∈ electra_sizes -> role ∈ electra_roles ->
        TF_ELECTRA_PRETRAINED_MODEL_ARCHIVE_MAP !! electra_name size role
        = Some (archive_url (electra_name size role)))
  /\ size TF_ELECTRA_PRETRAINED_MODEL_ARCHIVE_MAP = 6.
Proof.
  split; [|split].
  - intros name url Hl. apply elem_of_list_to_map_2 in Hl.
    unfold electra_sizes, electra_roles.
    repeat (apply elem_of_cons in Hl as [[= -> ->]|Hl];
            [split; [reflexivity|];
             first [ by exists "small", "generator"; set_solver
                   | by exists "base", "generator"; set_solver
                   | by exists "large", "generator"; set_solver
                   | by exists "small", "discriminator"; set_solver
                   | by exists "base", "discriminator"; set_solver
                   | by exists "large", "discriminator"; set_solver ]|]).
    inversion Hl.
  - unfold electra_sizes, electra_roles. intros size role Hs Hr.
    repeat (apply elem_of_cons in Hs as [->|Hs]);
      repeat (apply elem_of_cons in Hr as [->|Hr]);
      try (by inversion Hs); try (by inversion Hr); reflexivity.
  - reflexivity.
Qed.

Lemma archive_map_entries_witness :
  archive_url "google/electra-base-discriminator"
  = "https://s3.amazonaws.com/models.huggingface.co/bert/google/electra-base-discriminator/pytorch_model.bin"
  /\ TF_ELECTRA_PRETRAINED_MODEL_ARCHIVE_MAP !! electra_name "large" "generator"
     = Some (archive_url (electra_name "large" "generator")).
Proof.
  split; [reflexivity|].
  apply (proj1 (proj2 archive_map_entries) "large" "generator"); set_solver.
Defined.
